(** * app.js: ONNX inference page -- schema resolution, preprocessing,
      inference invocation and result decoding

    A shallow embedding of [src/app.js] and the proofs of its contracts.

    - Numbers are IEEE-754 binary64 values (Rocq's primitive floats, the
      representation of a JavaScript Number).
    - Strings are UTF-8 byte strings.
    - Arrays are lists; engine limits on the length of an array are outside
      the model.
    - The page is a record of the texts app.js reads and writes; the
      onnxruntime-web session is a function from feeds to a result, and
      the page records every call made to it.
    - The part of the ECMAScript library the program calls ([trim],
      [split], [join], [parseFloat], [toFixed], [Float32Array.from],
      template-literal number conversion) is embedded in [Module JS],
      following ECMA-262.

    [tryLoadMeta] and the rendering done by [init] and [numInput] are not
    embedded: [init] takes the descriptor [tryLoadMeta] returned and the
    session [ort.InferenceSession.create] returned. *)

From Stdlib Require Import ZArith List String Ascii Bool Lia Floats.
From Stdlib Require Import DecimalString DecimalN.
Import ListNotations.

#[local] Set Warnings "-inexact-float".

#[local] Open Scope list_scope.
#[local] Open Scope string_scope.

(* ===================================================================== *)
(** ** The ECMAScript built-ins used by app.js *)
(* ===================================================================== *)

Module JS.

(** *** Characters and white space *)

Definition isDigit (c : ascii) : bool :=
  let n := nat_of_ascii c in (48 <=? n)%nat && (n <=? 57)%nat.

Definition digitVal (c : ascii) : Z := Z.of_nat (nat_of_ascii c) - 48.

Definition bytes (l : list nat) : list ascii := map ascii_of_nat l.

(** UTF-8 encodings of the code points in WhiteSpace and LineTerminator:
    TAB LF VT FF CR SP, U+00A0, U+1680, U+2000..U+200A, U+2028, U+2029,
    U+202F, U+205F, U+3000, U+FEFF. *)
Definition whiteSpace : list (list ascii) :=
  map bytes
    ([[9]; [10]; [11]; [12]; [13]; [32]; [194; 160]; [225; 154; 128]]
     ++ map (fun b => [226; 128; b]) (seq 128 11)
     ++ [[226; 128; 168]; [226; 128; 169]; [226; 128; 175];
         [226; 129; 159]; [227; 128; 128]; [239; 187; 191]])%nat%list.

Fixpoint stripPrefix (p l : list ascii) : option (list ascii) :=
  match p, l with
  | [], _ => Some l
  | a :: p', b :: l' => if Ascii.eqb a b then stripPrefix p' l' else None
  | _ :: _, [] => None
  end.

Definition stripOne (ws : list (list ascii)) (l : list ascii)
  : option (list ascii) :=
  fold_right
    (fun p acc => match stripPrefix p l with Some r => Some r | None => acc end)
    None ws.

Fixpoint stripAll (ws : list (list ascii)) (fuel : nat) (l : list ascii)
  : list ascii :=
  match fuel with
  | O => l
  | S k => match stripOne ws l with
           | Some r => stripAll ws k r
           | None => l
           end
  end.

Definition trimStart (l : list ascii) : list ascii :=
  stripAll whiteSpace (List.length l) l.

Definition trimEnd (l : list ascii) : list ascii :=
  rev (stripAll (map (@rev ascii) whiteSpace) (List.length l) (rev l)).

(** [String.prototype.trim] *)
Definition trim (s : string) : string :=
  string_of_list_ascii (trimEnd (trimStart (list_ascii_of_string s))).

(** [s.split(",")] *)
Fixpoint split_comma (s : string) : list string :=
  match s with
  | EmptyString => [EmptyString]
  | String c r =>
      if Ascii.eqb c "," then EmptyString :: split_comma r
      else match split_comma r with
           | h :: t => String c h :: t
           | [] => [String c EmptyString]
           end
  end.

(** [Array.prototype.join] *)
Fixpoint join (sep : string) (l : list string) : string :=
  match l with
  | [] => EmptyString
  | [x] => x
  | x :: r => x ++ sep ++ join sep r
  end.

(** [a || b] on strings: the empty string is the only falsy string. *)
Definition or_else (a b : string) : string :=
  match a with EmptyString => b | _ => a end.

(** Decimal numeral of a natural number: what a template literal prints
    for an array length or an index (Number::toString on an integer below
    [10^21]). *)
Definition decimal (n : N) : string := NilZero.string_of_uint (N.to_uint n).

(** [Array.prototype.map] with the callback's index argument. *)
Fixpoint map_from {A B : Type} (f : A -> nat -> B) (i : nat) (l : list A)
  : list B :=
  match l with
  | [] => []
  | x :: r => f x i :: map_from f (S i) r
  end.

Definition Array_map {A B : Type} (f : A -> nat -> B) (l : list A) : list B :=
  map_from f 0 l.

(** [Array.from({ length: n }, (_, i) => f i)] *)
Definition Array_from_length {A : Type} (n : nat) (f : nat -> A) : list A :=
  map f (seq 0 n).

(** The own property [key] of an object given by its entries. *)
Fixpoint get {A : Type} (key : string) (obj : list (string * A)) : option A :=
  match obj with
  | [] => None
  | (k, v) :: r => if String.eqb k key then Some v else get key r
  end.

(** The properties a plain object inherits from [Object.prototype]: all of
    them are functions, except [__proto__], which reads as the prototype
    object itself. *)
Definition inheritedNames : list string :=
  ["constructor"; "hasOwnProperty"; "isPrototypeOf"; "propertyIsEnumerable";
   "toLocaleString"; "toString"; "valueOf"; "__proto__";
   "__defineGetter__"; "__defineSetter__"; "__lookupGetter__";
   "__lookupSetter__"].

Definition inheritedName (key : string) : bool :=
  existsb (String.eqb key) inheritedNames.

(** What [obj[key]] reads on a plain object: an own entry, else a property
    of [Object.prototype], else [undefined]. *)
Inductive Member (A : Type) :=
| Own (v : A)
| Inherited
| Undefined.
Arguments Own {A} v.
Arguments Inherited {A}.
Arguments Undefined {A}.

Definition member {A : Type} (key : string) (obj : list (string * A))
  : Member A :=
  match get key obj with
  | Some v => Own v
  | None => if inheritedName key then Inherited else Undefined
  end.

(** *** Numbers *)

Definition pow2 (e : Z) : Z := 2 ^ e.

(** The mathematical value of a finite double [m * 2^e], when it is an
    integer. *)
Definition integerValue (x : float) : option Z :=
  match Prim2SF x with
  | S754_zero _ => Some 0%Z
  | S754_finite s m e =>
      if (0 <=? e)%Z then Some (cond_Zopp s (Zpos m * pow2 e))
      else if (Zpos m mod pow2 (- e) =? 0)%Z
           then Some (cond_Zopp s (Zpos m / pow2 (- e)))
           else None
  | _ => None
  end.

(** [Number.isInteger] *)
Definition Number_isInteger (x : float) : bool :=
  match integerValue x with Some _ => true | None => false end.

(** [Number.isNaN] *)
Definition Number_isNaN (x : float) : bool := PrimFloat.is_nan x.

(** [Number(v)] on a value that is already a Number. *)
Definition Number (v : float) : float := v.

(** Conversion to binary32 and back, as storing into a [Float32Array]
    does (round to nearest, ties to even). *)
Definition fround (x : float) : float :=
  match Prim2SF x with
  | S754_finite s m e =>
      SF2Prim (binary_normalize 24 128 (cond_Zopp s (Zpos m)) e s)
  | _ => x
  end.

(** [Float32Array.from(row)] *)
Definition Float32Array_from (row : list float) : list float :=
  map fround row.

(** The double nearest to [(-1)^neg * m * 10^k]. *)
Definition roundDecimal (neg : bool) (m k : Z) : float :=
  match m with
  | Z0 => if neg then neg_zero else zero
  | Zpos p =>
      if (0 <=? k)%Z
      then SF2Prim (binary_normalize prec emax (cond_Zopp neg (m * 10 ^ k)) 0 neg)
      else SF2Prim (SFdiv prec emax (S754_finite neg p 0)
                      (S754_finite false (Z.to_pos (10 ^ (- k))) 0))
  | Zneg _ => nan
  end.

Fixpoint span (f : ascii -> bool) (l : list ascii)
  : list ascii * list ascii :=
  match l with
  | [] => ([], [])
  | c :: r => if f c then let (a, b) := span f r in (c :: a, b) else ([], l)
  end.

Definition digitsValue (ds : list ascii) : Z :=
  fold_left (fun acc c => 10 * acc + digitVal c)%Z ds 0%Z.

Definition takeSign (l : list ascii) : bool * list ascii :=
  match l with
  | c :: r => if Ascii.eqb c "-" then (true, r)
              else if Ascii.eqb c "+" then (false, r) else (false, l)
  | [] => (false, l)
  end.

Definition exponentPart (l : list ascii) : Z :=
  match l with
  | c :: r =>
      if Ascii.eqb c "e" || Ascii.eqb c "E" then
        let (eneg, r1) := takeSign r in
        let (ed, _) := span isDigit r1 in
        match ed with
        | [] => 0%Z
        | _ => cond_Zopp eneg (digitsValue ed)
        end
      else 0%Z
  | [] => 0%Z
  end.

(** [parseFloat]: skip leading white space, take the longest prefix that
    is a StrDecimalLiteral, and round its value to the nearest double. *)
Definition parseFloat (s : string) : float :=
  let l := trimStart (list_ascii_of_string s) in
  let (neg, l1) := takeSign l in
  match stripPrefix (list_ascii_of_string "Infinity") l1 with
  | Some _ => if neg then neg_infinity else infinity
  | None =>
      let (ip, l2) := span isDigit l1 in
      let (fp, l3) := match l2 with
                      | c :: r => if Ascii.eqb c "." then span isDigit r
                                  else ([], l2)
                      | [] => ([], l2)
                      end in
      match (ip ++ fp)%list with
      | [] => nan
      | ds => roundDecimal neg (digitsValue ds)
                (exponentPart l3 - Z.of_nat (List.length fp))
      end
  end.

(** *** Number formatting *)

(** [|x|] as an exact fraction [num / den] for the finite double
    [m * 2^e]. *)
Definition magNum (m : positive) (e : Z) : Z :=
  if (0 <=? e)%Z then Zpos m * pow2 e else Zpos m.
Definition magDen (e : Z) : Z :=
  if (0 <=? e)%Z then 1 else pow2 (- e).

(** [|x| < 10^21] *)
Definition below1e21 (m : positive) (e : Z) : bool :=
  (magNum m e <? 10 ^ 21 * magDen e)%Z.

(** Does the integer [v] round to the double with canonical mantissa [m]
    and exponent [e]? *)
Definition roundsTo (v : Z) (m : positive) (e : Z) : bool :=
  match binary_normalize prec emax v 0 false with
  | S754_finite _ m' e' => Pos.eqb m m' && Z.eqb e e'
  | _ => false
  end.

(** Number of decimal digits of a positive integer. *)
Definition decimalLength (v : Z) : nat :=
  String.length (decimal (Z.to_N v)).

(** Number::toString for a finite [x >= 10^21] whose integer value is [X]:
    the least [k] and the [k]-digit [s] with [s * 10^(n-k)] rounding to
    [x]; the result is in exponent form because [n > 21].  Returns the
    digits of [s] and [n - 1]. *)
Fixpoint shortest (fuel k : nat) (X : Z) (d : nat) (m : positive) (e : Z)
  : string * nat :=
  let p := (10 ^ Z.of_nat (d - k))%Z in
  let lo := (X / p)%Z in
  let okLo := roundsTo (lo * p) m e in
  let okHi := roundsTo ((lo + 1) * p) m e in
  let dLo := (X - lo * p)%Z in
  let dHi := ((lo + 1) * p - X)%Z in
  let useHi := okHi && (negb okLo || (dHi <? dLo)%Z
                        || ((dHi =? dLo)%Z && Z.odd lo)) in
  if okLo || okHi then
    let s := if useHi then (lo + 1)%Z else lo in
    if (s =? 10 ^ Z.of_nat k)%Z then ("1", d)
    else (decimal (Z.to_N s), (d - 1)%nat)
  else
    match fuel with
    | O => (decimal (Z.to_N X), (d - 1)%nat)
    | S fuel' => shortest fuel' (S k) X d m e
    end.

Definition exponentForm (digits : string) (ex : nat) : string :=
  match digits with
  | String c EmptyString => String c ("e+" ++ decimal (N.of_nat ex))
  | String c r => String c ("." ++ r ++ "e+" ++ decimal (N.of_nat ex))
  | EmptyString => "0"
  end.

Definition toStringLarge (m : positive) (e : Z) : string :=
  let X := (Zpos m * pow2 e)%Z in
  let (ds, ex) := shortest 20 1 X (decimalLength X) m e in
  exponentForm ds ex.

(** The integer [n] for which [n / 10^6 - |x|] is closest to zero, the
    larger one on a tie. *)
Definition scaled6 (m : positive) (e : Z) : Z :=
  ((2 * magNum m e * 10 ^ 6 + magDen e) / (2 * magDen e))%Z.

(** Steps 10-11 of Number.prototype.toFixed for [f = 6]: pad the numeral
    of [n] with zeros to at least seven digits, then put the point before
    the last six. *)
Definition fixed6 (n : Z) : string :=
  let ds := list_ascii_of_string (decimal (Z.to_N n)) in
  let ds' := if (List.length ds <=? 6)%nat
             then (repeat "0"%char (7 - List.length ds) ++ ds)%list
             else ds in
  let k := List.length ds' in
  string_of_list_ascii
    (firstn (k - 6) ds' ++ "."%char :: skipn (k - 6) ds')%list.

(** [x.toFixed(6)] *)
Definition toFixed6 (x : float) : string :=
  match Prim2SF x with
  | S754_nan => "NaN"
  | S754_infinity false => "Infinity"
  | S754_infinity true => "-Infinity"
  | S754_zero _ => fixed6 0
  | S754_finite s m e =>
      (if s then "-" else "")
      ++ (if below1e21 m e then fixed6 (scaled6 m e) else toStringLarge m e)
  end.

End JS.


#[local] Open Scope float_scope.

(* ===================================================================== *)
(** ** app.js *)
(* ===================================================================== *)

(** *** Data *)

(** The constants under CONFIGURE THESE (lines 7-13). *)
Record Config := {
  MODEL_URL : string;
  INPUT_NAME : string;
  OUTPUT_NAME : string;
  FEATURE_NAMES : list string;
  FEATURE_COUNT : float
}.

(** The constants as the repository ships them. *)
Definition shipped : Config := {|
  MODEL_URL := "model.onnx";
  INPUT_NAME := "input";
  OUTPUT_NAME := "output";
  FEATURE_NAMES := [];
  FEATURE_COUNT := 0
|}.

(** A parsed meta.json.  A field is [None] when it is missing or is not an
    array ([Array.isArray] fails); the scaler arrays are kept after
    [.map(Number)]. *)
Record Meta := {
  feature_names : option (list string);
  scaler_mean : option (list float);
  scaler_scale : option (list float);
  best_model_name : option string
}.

Record Scaler := { mean : list float; scale : list float }.

(** [new ort.Tensor(type, data, dims)] *)
Record Tensor := {
  tensor_type : string;
  tensor_data : list float;
  dims : list nat
}.

(** [out.data]: a plain array or a typed array of numbers. *)
Inductive Buffer :=
| PlainArray (values : list float)
| TypedArray (values : list float).

Record Output := { data : Buffer }.

Definition Feeds := list (string * Tensor).

(** What awaiting [session.run(feeds)] gives: the named outputs, or the
    error the runner threw. *)
Inductive RunResult :=
| Resolved (outputs : list (string * Output))
| Rejected (message : string).

(** The onnxruntime-web session: an external collaborator. *)
Definition Session := Feeds -> RunResult.

(** The module-level variables (lines 16-19). *)
Record Globals := {
  meta : option Meta;
  session : option Session;
  featureNames : list string;
  scaler : option Scaler
}.

(** The page: the text of the elements app.js reads and writes, the
    console, and the calls made to [session.run] so far.  [inputValue id]
    is the value of the element with that id; the record describes pages
    on which each element the program looks up exists. *)
Record Page := {
  csvRow : string;
  inputValue : string -> string;
  result : string;
  status : string;
  console : list string;
  runs : list Feeds
}.

(** *** init (lines 45-111): the module-level variables it sets *)

Definition lengthOf (count : float) : nat :=
  match JS.integerValue count with
  | Some n => Z.to_nat n
  | None => O
  end.

Definition init (cfg : Config) (loaded : option Meta) (created : Session)
  : Globals :=
  let names_of_meta :=
    match loaded with
    | Some m => match feature_names m with
                | Some l => if (0 <? List.length l)%nat then Some l else None
                | None => None
                end
    | None => None
    end in
  let names :=
    match names_of_meta with
    | Some l => l
    | None =>
        if (0 <? List.length (FEATURE_NAMES cfg))%nat then FEATURE_NAMES cfg
        else if JS.Number_isInteger (FEATURE_COUNT cfg)
                && (0 <? FEATURE_COUNT cfg)
        then JS.Array_from_length (lengthOf (FEATURE_COUNT cfg))
               (fun i => "f" ++ JS.decimal (N.of_nat (i + 1)))%string
        else []
    end in
  let sc :=
    match loaded with
    | Some m => match scaler_mean m, scaler_scale m with
                | Some mu, Some sd => Some {| mean := mu; scale := sd |}
                | _, _ => None
                end
    | None => None
    end in
  {| meta := loaded; session := Some created;
     featureNames := names; scaler := sc |}.

(** *** resetUI (lines 113-122) *)

Definition resetUI (g : Globals) (w : Page) : Page :=
  {| csvRow := "";
     inputValue := fun id =>
       if existsb (fun name => String.eqb id ("f_" ++ name)) (featureNames g)
       then "0" else inputValue w id;
     result := "—";
     status := "Ready.";
     console := console w;
     runs := runs w |}.

(** *** zscoreRow (lines 124-126) *)

Definition zscoreRow (values mean scale : list float) : list float :=
  JS.Array_map (fun v i => (v - nth i mean nan) / nth i scale nan) values.

(** *** getRowValues (lines 128-143) *)

Definition getRowValues (g : Globals) (w : Page) : list float :=
  let csv := JS.trim (JS.or_else (csvRow w) "") in
  if (0 <? String.length csv)%nat then
    filter (fun v => negb (JS.Number_isNaN v))
      (map (fun s => JS.parseFloat (JS.trim s)) (JS.split_comma csv))
  else if (0 <? List.length (featureNames g))%nat then
    map (fun n => JS.parseFloat (JS.or_else (inputValue w ("f_" ++ n)) "0"))
      (featureNames g)
  else [].

(** *** predict (lines 145-190) *)

(** The body of the [try] block either completes or throws an [Error]
    with a message; it reads and writes the page as it goes. *)
Inductive Completion (A : Type) :=
| Normal (a : A)
| Throw (message : string).
Arguments Normal {A} a.
Arguments Throw {A} message.

Definition Eff (A : Type) : Type := Page -> Completion A * Page.

Definition ret {A : Type} (a : A) : Eff A := fun w => (Normal a, w).

Definition throw {A : Type} (message : string) : Eff A :=
  fun w => (Throw message, w).

Definition bind {A B : Type} (m : Eff A) (k : A -> Eff B) : Eff B :=
  fun w => match m w with
           | (Normal a, w') => k a w'
           | (Throw e, w') => (Throw e, w')
           end.

Notation "x <- m ;; k" := (bind m (fun x => k))
  (at level 61, m at next level, right associativity).
Notation "m ;;; k" := (bind m (fun _ => k))
  (at level 61, right associativity).

Definition with_status (s : string) (w : Page) : Page :=
  {| csvRow := csvRow w; inputValue := inputValue w; result := result w;
     status := s; console := console w; runs := runs w |}.

Definition with_result (s : string) (w : Page) : Page :=
  {| csvRow := csvRow w; inputValue := inputValue w; result := s;
     status := status w; console := console w; runs := runs w |}.

Definition with_console (s : string) (w : Page) : Page :=
  {| csvRow := csvRow w; inputValue := inputValue w; result := result w;
     status := status w; console := (console w ++ [s])%list;
     runs := runs w |}.

Definition with_run (feeds : Feeds) (w : Page) : Page :=
  {| csvRow := csvRow w; inputValue := inputValue w; result := result w;
     status := status w; console := console w;
     runs := (runs w ++ [feeds])%list |}.

Definition set_status (s : string) : Eff unit :=
  fun w => (Normal tt, with_status s w).

Definition set_result (s : string) : Eff unit :=
  fun w => (Normal tt, with_result s w).

Definition console_error (s : string) : Eff unit :=
  fun w => (Normal tt, with_console s w).

(** [await session.run(feeds)] *)
Definition session_run (run : Session) (feeds : Feeds)
  : Eff (list (string * Output)) :=
  fun w => match run feeds with
           | Resolved outputs => (Normal outputs, with_run feeds w)
           | Rejected e => (Throw e, with_run feeds w)
           end.

Definition dquote : string := String (ascii_of_nat 34) EmptyString.

Definition noInputMessage : string := "No input values provided.".

Definition expectedMessage (expected got : nat) : string :=
  "Expected " ++ JS.decimal (N.of_nat expected) ++ " features, got "
  ++ JS.decimal (N.of_nat got) ++ ".".

Definition scalerMessage : string :=
  "Scaler length does not match feature count.".

Definition missingOutputMessage (name : string) : string :=
  "Output named " ++ dquote ++ name ++ dquote
  ++ " not found. Check OUTPUT_NAME.".

(** The message of the TypeError [Array.from(undefined)] throws, in V8's
    words (the text is the engine's). *)
Definition notIterableMessage : string :=
  "undefined is not iterable (cannot read property Symbol(Symbol.iterator))".

(** Line 168: [new ort.Tensor("float32", Float32Array.from(row),
    [1, row.length])]. *)
Definition float32Tensor (row : list float) : Tensor :=
  {| tensor_type := "float32";
     tensor_data := JS.Float32Array_from row;
     dims := [1%nat; List.length row] |}.

(** Lines 174-182: the text of the prediction. *)
Definition predText (out : Output) : string :=
  match data out with
  | PlainArray values =>
      JS.join ", " (map (fun v => JS.toFixed6 (JS.Number v)) values)
  | TypedArray values =>
      JS.join ", " (map (fun v => JS.toFixed6 (JS.Number v)) values)
  end.

(** The text put into the result element (line 184). *)
Definition resultText (out : Output) : string :=
  JS.or_else (predText out) "—".

Definition predict_try (cfg : Config) (g : Globals) (run : Session)
  : Eff unit :=
  set_status "Running…" ;;;
  row <- (fun w => (Normal (getRowValues g w), w)) ;;
  (if (List.length row =? 0)%nat then throw noInputMessage else ret tt) ;;;
  (if (0 <? List.length (featureNames g))%nat
      && negb (List.length row =? List.length (featureNames g))%nat
   then throw (expectedMessage (List.length (featureNames g)) (List.length row))
   else ret tt) ;;;
  row <- match scaler g with
         | Some sc =>
             if negb (List.length (mean sc) =? List.length row)%nat
                || negb (List.length (scale sc) =? List.length row)%nat
             then throw scalerMessage
             else ret (zscoreRow row (mean sc) (scale sc))
         | None => ret row
         end ;;
  let inputTensor := float32Tensor row in
  outputs <- session_run run [(INPUT_NAME cfg, inputTensor)] ;;
  match JS.member (OUTPUT_NAME cfg) outputs with
  | JS.Undefined => throw (missingOutputMessage (OUTPUT_NAME cfg))
  | JS.Inherited =>
      (* [out] is a function or the prototype object: truthy, and
         [out.data] is [undefined], which is not an array *)
      throw notIterableMessage
  | JS.Own out =>
      set_result (resultText out) ;;;
      set_status "Done."
  end.

Definition predict (cfg : Config) (g : Globals) (w : Page) : Page :=
  match session g with
  | None => w
  | Some run =>
      match predict_try cfg g run w with
      | (Normal _, w') => w'
      | (Throw message, w') =>
          snd ((console_error message ;;;
                set_status ("Error: " ++ message)) w')
      end
  end.

(* ===================================================================== *)
(** ** Vocabulary of the specification *)
(* ===================================================================== *)

(** The feature-name list a descriptor supplies, if any. *)
Definition descriptorNames (loaded : option Meta) : option (list string) :=
  match loaded with
  | Some m => feature_names m
  | None => None
  end.

(** A Number that is a positive integer, as a count. *)
Definition positiveInteger (count : float) : option nat :=
  match JS.integerValue count with
  | Some n => if (0 <? n)%Z then Some (Z.to_nat n) else None
  | None => None
  end.

(** [f1 .. fN] *)
Definition synthesized (N : nat) : list string :=
  map (fun k => "f" ++ JS.decimal (N.of_nat k))%string (seq 1 N).

(** The precedence of section 4.2, in the specification's words: the
    descriptor's list when present and non-empty, else the static list
    when non-empty, else [f1 .. fN] for a positive integer count [N],
    else the empty list. *)
Definition schema_spec (descriptor : option (list string))
    (static : list string) (count : float) : list string :=
  match descriptor with
  | Some (n :: l) => n :: l
  | _ =>
      match static with
      | n :: l => n :: l
      | [] =>
          match positiveInteger count with
          | Some N => synthesized N
          | None => []
          end
      end
  end.


(** A request is rejected with [message]: the status line shows the error,
    the runner has not been called and the result element is untouched. *)
Definition rejectedWith (message : string) (before after : Page) : Prop :=
  status after = ("Error: " ++ message)%string
  /\ runs after = runs before
  /\ result after = result before.

(** The schema-length check of line 155 lets a row through. *)
Definition schemaAccepts (g : Globals) (row : list float) : Prop :=
  featureNames g = [] \/ List.length row = List.length (featureNames g).

(** The messages of the ShapeMismatch class: the schema-length error of
    line 156 and the scaler-length error of line 162. *)
Definition shapeMismatch (g : Globals) (row : list float) (message : string)
  : Prop :=
  message = scalerMessage
  \/ message = expectedMessage (List.length (featureNames g))
                 (List.length row).

(** The [catch] block (lines 186-189) applied to a page. *)
Definition failed (message : string) (w : Page) : Page :=
  with_status ("Error: " ++ message) (with_console message w).

(** Lines 168-185 applied to a page, once the final row is known. *)
Definition invoked (cfg : Config) (run : Session) (row : list float)
    (w : Page) : Page :=
  let feeds := [(INPUT_NAME cfg, float32Tensor row)] in
  match run feeds with
  | Rejected e => failed e (with_run feeds w)
  | Resolved outputs =>
      match JS.member (OUTPUT_NAME cfg) outputs with
      | JS.Undefined =>
          failed (missingOutputMessage (OUTPUT_NAME cfg)) (with_run feeds w)
      | JS.Inherited => failed notIterableMessage (with_run feeds w)
      | JS.Own out =>
          with_status "Done."
            (with_result (resultText out) (with_run feeds w))
      end
  end.

Definition bufferValues (b : Buffer) : list float :=
  match b with
  | PlainArray values => values
  | TypedArray values => values
  end.


(** A string of decimal digits. *)
Definition digits (s : string) : bool :=
  forallb JS.isDigit (list_ascii_of_string s).

(** One or more digits, a point, six digits. *)
Definition sixDecimals (body : string) : bool :=
  match rev (list_ascii_of_string body) with
  | d6 :: d5 :: d4 :: d3 :: d2 :: d1 :: p :: i :: r =>
      forallb JS.isDigit [d1; d2; d3; d4; d5; d6]
      && Ascii.eqb p "." && forallb JS.isDigit (i :: r)
  | _ => false
  end.



Definition sentinel : string := "—".

(* ===================================================================== *)
(** ** Concrete pages, descriptors and runners *)
(* ===================================================================== *)

Definition metaXY : Meta :=
  {| feature_names := Some ["x"; "y"]%string;
     scaler_mean := Some [1; 1];
     scaler_scale := Some [2; 2];
     best_model_name := None |}.

Definition metaScalerOnly : Meta :=
  {| feature_names := None;
     scaler_mean := Some [1; 1];
     scaler_scale := Some [2; 2];
     best_model_name := None |}.

Definition namesAB : Config :=
  {| MODEL_URL := "model.onnx"; INPUT_NAME := "input";
     OUTPUT_NAME := "output"; FEATURE_NAMES := ["a"; "b"]%string;
     FEATURE_COUNT := 0 |}.

Definition count3 : Config :=
  {| MODEL_URL := "model.onnx"; INPUT_NAME := "input";
     OUTPUT_NAME := "output"; FEATURE_NAMES := [];
     FEATURE_COUNT := 3 |}.

(** The output name set to a property every object inherits. *)
Definition outputToString : Config :=
  {| MODEL_URL := "model.onnx"; INPUT_NAME := "input";
     OUTPUT_NAME := "toString"; FEATURE_NAMES := [];
     FEATURE_COUNT := 0 |}.

(** A runner that returns its input under the name [output]. *)
Definition echo : Session := fun feeds =>
  match feeds with
  | (_, t) :: _ =>
      Resolved [("output"%string, {| data := TypedArray (tensor_data t) |})]
  | [] => Rejected "no input"
  end.

(** A runner whose output has another name. *)
Definition misnamed : Session := fun _ =>
  Resolved [("yhat"%string, {| data := TypedArray [1] |})].

(** A runner whose output buffer is empty. *)
Definition silent : Session := fun _ =>
  Resolved [("output"%string, {| data := TypedArray [] |})].

(** A page with [csv] in the Quick Paste box and [x = 3], [y = 5], [a = 5]
    in the feature inputs. *)
Definition page (csv : string) : Page :=
  {| csvRow := csv;
     inputValue := fun id =>
       if String.eqb id "f_x" then "3"
       else if String.eqb id "f_y" then "5"
       else if String.eqb id "f_a" then "5" else "0";
     result := "—";
     status := "Ready.";
     console := [];
     runs := [] |}.

(** The same page with every feature input left at [0]. *)
Definition pageZeros (csv : string) : Page :=
  {| csvRow := csv;
     inputValue := fun _ => "0";
     result := "—";
     status := "Ready.";
     console := [];
     runs := [] |}.

(** The module-level variables after [init] in four configurations. *)
Definition gXY : Globals := init shipped (Some metaXY) echo.
Definition gScalerOnly : Globals := init shipped (Some metaScalerOnly) echo.
Definition gAB : Globals := init namesAB None echo.
Definition gFree : Globals := init shipped None echo.

(* ===================================================================== *)
(** ** tryLoadMeta (lines 30-43) and the start of init *)
(* ===================================================================== *)

Fixpoint noSlash (s : string) : bool :=
  match s with
  | EmptyString => true
  | String c r => negb (Ascii.eqb c "/") && noSlash r
  end.

(** [s.replace(/[^/]+$/, r)]: the match starts at the leftmost position
    from which the rest of the string is a non-empty run without a slash;
    when there is no such position nothing is replaced. *)
Fixpoint replaceFinalSegment (r s : string) : string :=
  match s with
  | EmptyString => EmptyString
  | String c rest =>
      if noSlash s then r else String c (replaceFinalSegment r rest)
  end.

(** What [fetch(url)] gives: it rejects, or it resolves to a response with
    its [ok] flag and what [r.json()] would give, which is a rejection
    ([None]) for a body that does not parse, else the parsed value ([null]
    or a descriptor). *)
Inductive Fetched :=
| NetworkError
| Response (ok : bool) (json : option (option Meta)).

(** The network: an external collaborator. *)
Definition Network := string -> Fetched.

(** Lines 32-35. *)
Definition candidates (cfg : Config) : list string :=
  [replaceFinalSegment "meta.json" (MODEL_URL cfg); "meta.json"].

(** The [for] loop of lines 36-42 with the final [return null]; the second
    component lists the URLs fetched so far. *)
Fixpoint tryLoadMeta_loop (net : Network) (urls fetched : list string)
  : option Meta * list string :=
  match urls with
  | [] => (None, fetched)
  | url :: rest =>
      match net url with
      | Response true (Some parsed) => (parsed, (fetched ++ [url])%list)
      | _ => tryLoadMeta_loop net rest (fetched ++ [url])%list
      end
  end.

Definition tryLoadMeta (cfg : Config) (net : Network)
  : option Meta * list string :=
  tryLoadMeta_loop net (candidates cfg) [].

(** Lines 50-70 as the page runs them: [init] on the descriptor
    [tryLoadMeta] returned. *)
Definition startup (cfg : Config) (net : Network) (created : Session)
  : Globals :=
  init cfg (fst (tryLoadMeta cfg net)) created.

(** A candidate is usable when its response is [ok] and its body parses. *)
Definition usable (net : Network) (url : string) : option (option Meta) :=
  match net url with
  | Response true (Some parsed) => Some parsed
  | _ => None
  end.

(** The fields of [s.split(",")] are one more than its commas. *)
Fixpoint commas (s : string) : nat :=
  match s with
  | EmptyString => O
  | String c r => if Ascii.eqb c "," then S (commas r) else commas r
  end.

Definition modelInFolder : Config :=
  {| MODEL_URL := "artifacts/run1/model.onnx"; INPUT_NAME := "input";
     OUTPUT_NAME := "output"; FEATURE_NAMES := ["a"; "b"]%string;
     FEATURE_COUNT := 0 |}.

(** A network that serves [metaXY] at the root only. *)
Definition rootOnly : Network := fun url =>
  if String.eqb url "meta.json" then Response true (Some (Some metaXY))
  else Response false None.

(** A network that serves [metaXY] next to the model and a broken file at
    the root. *)
Definition besideModel : Network := fun url =>
  if String.eqb url "artifacts/run1/meta.json"
  then Response true (Some (Some metaXY))
  else Response true None.

(** A network that is down. *)
Definition offline : Network := fun _ => NetworkError.

(** A model URL that names a folder. *)
Definition folderOnly : Config :=
  {| MODEL_URL := "models/"; INPUT_NAME := "input";
     OUTPUT_NAME := "output"; FEATURE_NAMES := [];
     FEATURE_COUNT := 0 |}.

(** A page whose Quick Paste box and feature inputs are all empty. *)
Definition pageBlank : Page :=
  {| csvRow := "";
     inputValue := fun _ => "";
     result := "—";
     status := "Ready.";
     console := [];
     runs := [] |}.

(** The characters the HTML parser does not take literally in the markup
    [numInput] writes (lines 24-26): NUL, CR, the double quote, the
    ampersand and the less-than sign. *)
Definition plainChar (c : ascii) : bool :=
  negb (existsb (Ascii.eqb c)
          (map ascii_of_nat [0; 13; 34; 38; 60]%nat)).

Definition plainName (name : string) : bool :=
  forallb plainChar (list_ascii_of_string name).

(** Every feature name is plain, so the markup [init] writes for it
    (lines 75-79) is a label and one input whose id is [f_] followed by
    the name: the element [getRowValues] and [resetUI] look up exists. *)
Definition inputsRendered (g : Globals) : Prop :=
  Forall (fun name => plainName name = true) (featureNames g).

(** A descriptor whose scaler is shorter than its schema. *)
Definition metaShortScaler : Meta :=
  {| feature_names := Some ["x"; "y"]%string;
     scaler_mean := Some [1];
     scaler_scale := Some [2];
     best_model_name := None |}.

(* ===================================================================== *)
(** ** The built-ins on known values *)
(* ===================================================================== *)

Module JSChecks.

Example parseFloat_plain : JS.parseFloat " 1.5" = 1.5.
Proof. vm_compute. reflexivity. Qed.

Example parseFloat_tenth : JS.parseFloat "0.1" = 0x1.999999999999ap-4.
Proof. vm_compute. reflexivity. Qed.

Example parseFloat_prefix : JS.parseFloat "-12.375e-2abc" = -0.12375.
Proof. vm_compute. reflexivity. Qed.

Example parseFloat_halfway :
  JS.parseFloat "2.2250738585072012e-308" = 0x1p-1022.
Proof. vm_compute. reflexivity. Qed.

Example parseFloat_overflow : JS.parseFloat "1e309" = infinity.
Proof. vm_compute. reflexivity. Qed.

Example parseFloat_words :
  JS.Number_isNaN (JS.parseFloat "abc") = true
  /\ JS.Number_isNaN (JS.parseFloat "") = true
  /\ JS.Number_isNaN (JS.parseFloat ".") = true
  /\ JS.parseFloat "5.e3" = 5000 /\ JS.parseFloat ".5" = 0.5.
Proof. vm_compute. repeat split. Qed.

Example fround_tenth : JS.fround 0.1 = 0x1.99999ap-4.
Proof. vm_compute. reflexivity. Qed.

Example fround_range :
  JS.fround 1e39 = infinity /\ JS.fround 1e-46 = 0
  /\ JS.fround 1e-45 = 0x1p-149.
Proof. vm_compute. repeat split. Qed.

Example trim_both : JS.trim "  a b
" = "a b"%string.
Proof. vm_compute. reflexivity. Qed.

Example split_empty_fields :
  JS.split_comma "1,,2," = ["1"; ""; "2"; ""]%string.
Proof. vm_compute. reflexivity. Qed.

Example isInteger_values :
  JS.Number_isInteger 3 = true /\ JS.Number_isInteger 2.5 = false
  /\ JS.Number_isInteger 1e300 = true /\ JS.Number_isInteger nan = false
  /\ JS.integerValue 48 = Some 48%Z.
Proof. vm_compute. repeat split. Qed.

Example toFixed6_rounding :
  JS.toFixed6 1.5 = "1.500000"%string
  /\ JS.toFixed6 0.0000005 = "0.000000"%string
  /\ JS.toFixed6 0.00000051 = "0.000001"%string
  /\ JS.toFixed6 1.0000005 = "1.000001"%string
  /\ JS.toFixed6 123456789.1234565 = "123456789.123456"%string.
Proof. vm_compute. repeat split. Qed.

Example toFixed6_signs :
  JS.toFixed6 (-0.0000001) = "-0.000000"%string
  /\ JS.toFixed6 (-0) = "0.000000"%string
  /\ JS.toFixed6 (-2.5) = "-2.500000"%string.
Proof. vm_compute. repeat split. Qed.

Example toFixed6_not_finite :
  JS.toFixed6 nan = "NaN"%string
  /\ JS.toFixed6 infinity = "Infinity"%string
  /\ JS.toFixed6 neg_infinity = "-Infinity"%string.
Proof. vm_compute. repeat split. Qed.

Example toFixed6_large :
  JS.toFixed6 999999999999999868928 = "999999999999999868928.000000"%string
  /\ JS.toFixed6 1e21 = "1e+21"%string
  /\ JS.toFixed6 (-1.2345e25) = "-1.2345e+25"%string
  /\ JS.toFixed6 0x1p70 = "1.1805916207174113e+21"%string
  /\ JS.toFixed6 0x1.fffffep127 = "3.4028234663852886e+38"%string
  /\ JS.toFixed6 0x1.fffffffffffffp+1023 = "1.7976931348623157e+308"%string.
Proof. vm_compute. repeat split. Qed.

End JSChecks.

(* ===================================================================== *)
(** ** The scenarios of the specification *)
(* ===================================================================== *)

Module Scenarios.

(** Descriptor absent, static names [a, b], input [1,2]: the schema is
    [a, b], nothing is normalized, the tensor has shape [1, 2] and values
    [1, 2]. *)
Example static_names :
  featureNames gAB = ["a"; "b"]%string
  /\ scaler gAB = None
  /\ runs (predict namesAB gAB (page "1,2"))
     = [[("input"%string,
          {| tensor_type := "float32"; tensor_data := [1; 2];
             dims := [1; 2]%nat |})]]
  /\ result (predict namesAB gAB (page "1,2"))
     = "1.000000, 2.000000"%string.
Proof. repeat split; vm_compute; reflexivity. Qed.

(** Descriptor with names [x, y], center [1, 1], scale [2, 2], input
    [x = 3], [y = 5]: the normalized vector is [1, 2]. *)
Example descriptor_scaling :
  getRowValues gXY (page "") = [3; 5]
  /\ zscoreRow [3; 5] [1; 1] [2; 2] = [1; 2]
  /\ runs (predict shipped gXY (page ""))
     = [[("input"%string, float32Tensor [1; 2])]].
Proof. repeat split; vm_compute; reflexivity. Qed.

(** A static count of 3 and nothing else: the names are [f1, f2, f3]. *)
Example static_count :
  featureNames (init count3 None echo) = ["f1"; "f2"; "f3"]%string.
Proof. vm_compute. reflexivity. Qed.

End Scenarios.

(* ===================================================================== *)
(** ** Feature-schema resolution *)
(* ===================================================================== *)

Section SchemaResolution.

Lemma zero_lt_finite (s : bool) (m : positive) (e : Z) (c : float) :
  Prim2SF c = S754_finite s m e -> (0 <? c) = negb s.
Proof.
  intros H. rewrite ltb_spec, H.
  change (Prim2SF 0) with (S754_zero false).
  destruct s; reflexivity.
Qed.

Lemma zero_lt_zero (s : bool) (c : float) :
  Prim2SF c = S754_zero s -> (0 <? c) = false.
Proof.
  intros H. rewrite ltb_spec, H.
  change (Prim2SF 0) with (S754_zero false).
  reflexivity.
Qed.

Lemma ltb_cond_Zopp (s : bool) (v : Z) :
  (0 < v)%Z -> (0 <? cond_Zopp s v)%Z = negb s.
Proof.
  intros H. destruct s; cbn [cond_Zopp negb];
    [apply Z.ltb_ge | apply Z.ltb_lt]; lia.
Qed.

Lemma zero_lt_integer (c : float) (n : Z) :
  JS.integerValue c = Some n -> (0 <? c) = (0 <? n)%Z.
Proof.
  unfold JS.integerValue. destruct (Prim2SF c) as [s | s | | s m e] eqn:E;
    try discriminate.
  - intros [= <-]. now rewrite (zero_lt_zero s).
  - rewrite (zero_lt_finite s m e c E). unfold JS.pow2.
    destruct (0 <=? e)%Z eqn:He.
    + apply Z.leb_le in He.
      assert (H : (0 < Z.pos m * 2 ^ e)%Z)
        by (apply Z.mul_pos_pos; [lia | now apply Z.pow_pos_nonneg]).
      remember (Z.pos m * 2 ^ e)%Z as v.
      intros [= <-]. now rewrite ltb_cond_Zopp.
    + apply Z.leb_gt in He.
      destruct (Z.pos m mod 2 ^ (- e) =? 0)%Z eqn:Hm; [|discriminate].
      apply Z.eqb_eq in Hm.
      assert (Hp : (0 < 2 ^ (- e))%Z) by (apply Z.pow_pos_nonneg; lia).
      assert (H : (0 < Z.pos m / 2 ^ (- e))%Z).
      { pose proof (Z.div_mod (Z.pos m) (2 ^ (- e))%Z ltac:(lia)) as Hd.
        rewrite Hm, Z.add_0_r in Hd.
        pose proof (Z.div_pos (Z.pos m) (2 ^ (- e))%Z ltac:(lia) Hp) as Hq.
        destruct (Z.eq_dec (Z.pos m / 2 ^ (- e))%Z 0) as [Q|Q]; [|lia].
        rewrite Q, Z.mul_0_r in Hd. discriminate. }
      remember (Z.pos m / 2 ^ (- e))%Z as v.
      intros [= <-]. now rewrite ltb_cond_Zopp.
Qed.

(** The test of line 57 holds exactly for a positive integer count, and
    then the array has that many entries. *)
Lemma count_test (c : float) :
  JS.Number_isInteger c && (0 <? c) =
  match positiveInteger c with Some _ => true | None => false end.
Proof.
  unfold JS.Number_isInteger, positiveInteger.
  destruct (JS.integerValue c) as [n|] eqn:E; [|reflexivity].
  rewrite (zero_lt_integer c n E). simpl. now destruct (0 <? n)%Z.
Qed.

Lemma count_length (c : float) (N : nat) :
  positiveInteger c = Some N -> lengthOf c = N.
Proof.
  unfold positiveInteger, lengthOf.
  destruct (JS.integerValue c) as [n|]; [|discriminate].
  destruct (0 <? n)%Z; [|discriminate]. now intros [= <-].
Qed.

Lemma from_length_synthesized (N : nat) :
  JS.Array_from_length N (fun i => "f" ++ JS.decimal (N.of_nat (i + 1)))%string
  = synthesized N.
Proof.
  unfold JS.Array_from_length, synthesized.
  rewrite <- seq_shift, map_map.
  apply map_ext. intros i. now rewrite Nat.add_1_r.
Qed.

(** C1.  Feature-schema resolution takes exactly the branch the fixed
    precedence selects: the descriptor's feature-name list verbatim when
    it is present and non-empty, otherwise the static name list verbatim
    when non-empty, otherwise the names [f1 .. fN] in increasing order
    when the static count is a positive integer [N], otherwise the empty
    list.  The result is always a list. *)
Theorem C1_schema_precedence (cfg : Config) (loaded : option Meta)
    (created : Session) :
  featureNames (init cfg loaded created)
  = schema_spec (descriptorNames loaded) (FEATURE_NAMES cfg)
      (FEATURE_COUNT cfg).
Proof.
  unfold init, schema_spec, descriptorNames. cbn [featureNames].
  assert (Hfall :
    (if (0 <? List.length (FEATURE_NAMES cfg))%nat then FEATURE_NAMES cfg
     else if JS.Number_isInteger (FEATURE_COUNT cfg) && (0 <? FEATURE_COUNT cfg)
          then JS.Array_from_length (lengthOf (FEATURE_COUNT cfg))
                 (fun i => "f" ++ JS.decimal (N.of_nat (i + 1)))%string
          else [])
    = match FEATURE_NAMES cfg with
      | n :: l => n :: l
      | [] => match positiveInteger (FEATURE_COUNT cfg) with
              | Some N => synthesized N
              | None => []
              end
      end).
  { destruct (FEATURE_NAMES cfg) as [|n l]; [|reflexivity]. cbn [List.length Nat.ltb Nat.leb].
    rewrite count_test.
    destruct (positiveInteger (FEATURE_COUNT cfg)) as [N|] eqn:E; [|reflexivity].
    rewrite (count_length _ _ E). apply from_length_synthesized. }
  destruct loaded as [m|]; [|exact Hfall].
  destruct (feature_names m) as [[|n l]|]; try exact Hfall.
  reflexivity.
Qed.

(** The synthesized list has exactly [N] names and the [i]-th (from 0) is
    [f] followed by the numeral of [i + 1]. *)
Lemma synthesized_length (N : nat) : List.length (synthesized N) = N.
Proof. unfold synthesized. now rewrite length_map, length_seq. Qed.

Lemma synthesized_nth (N i : nat) :
  (i < N)%nat ->
  nth i (synthesized N) ""%string = ("f" ++ JS.decimal (N.of_nat (i + 1)))%string.
Proof.
  intros H. unfold synthesized.
  set (f := fun k : nat => ("f" ++ JS.decimal (N.of_nat k))%string).
  rewrite (nth_indep _ ""%string (f O))
    by (now rewrite length_map, length_seq).
  rewrite (map_nth f), seq_nth by assumption.
  unfold f. now rewrite Nat.add_comm.
Qed.

End SchemaResolution.


(* ===================================================================== *)
(** ** zscoreRow *)
(* ===================================================================== *)

Section ZScore.

Lemma map_from_length {A B : Type} (f : A -> nat -> B) (l : list A) (k : nat) :
  List.length (JS.map_from f k l) = List.length l.
Proof.
  revert k. induction l as [|x l IH]; intros k; cbn; [reflexivity|].
  now rewrite IH.
Qed.

Lemma map_from_nth {A B : Type} (f : A -> nat -> B) (l : list A) (k i : nat)
    (a : A) (b : B) :
  (i < List.length l)%nat ->
  nth i (JS.map_from f k l) b = f (nth i l a) (k + i)%nat.
Proof.
  revert k i. induction l as [|x l IH]; intros k i Hi; cbn in Hi; [lia|].
  destruct i as [|i]; cbn.
  - now rewrite Nat.add_0_r.
  - rewrite IH by lia. f_equal. lia.
Qed.

Lemma zscoreRow_length (values mean scale : list float) :
  List.length (zscoreRow values mean scale) = List.length values.
Proof. apply map_from_length. Qed.

Lemma zscoreRow_nth (values mean scale : list float) (i : nat) :
  (i < List.length values)%nat ->
  nth i (zscoreRow values mean scale) nan
  = (nth i values nan - nth i mean nan) / nth i scale nan.
Proof.
  intros Hi. unfold zscoreRow, JS.Array_map.
  now rewrite (map_from_nth _ values 0 i nan nan Hi).
Qed.

End ZScore.

(* ===================================================================== *)
(** ** Prediction requests *)
(* ===================================================================== *)

Section Requests.

Variable cfg : Config.
Variable g : Globals.
Variable run : Session.

(** The page is ready: [init] has created the session.  [predict] is
    registered as the click handler only after that (lines 106-109). *)
Hypothesis ready : session g = Some run.

Lemma getRowValues_status (s : string) (w : Page) :
  getRowValues g (with_status s w) = getRowValues g w.
Proof. reflexivity. Qed.

(** The paths through [predict], in the order the checks are made. *)
Lemma predict_paths (w : Page) :
  predict cfg g w =
  let w1 := with_status "Running…" w in
  let row := getRowValues g w in
  if (List.length row =? 0)%nat then failed noInputMessage w1
  else if (0 <? List.length (featureNames g))%nat
          && negb (List.length row =? List.length (featureNames g))%nat
  then failed (expectedMessage (List.length (featureNames g))
                 (List.length row)) w1
  else match scaler g with
       | Some sc =>
           if negb (List.length (mean sc) =? List.length row)%nat
              || negb (List.length (scale sc) =? List.length row)%nat
           then failed scalerMessage w1
           else invoked cfg run (zscoreRow row (mean sc) (scale sc)) w1
       | None => invoked cfg run row w1
       end.
Proof.
  unfold predict. rewrite ready.
  unfold predict_try, bind, set_status, set_result, console_error,
    session_run, ret, throw.
  rewrite getRowValues_status. cbv zeta.
  destruct (List.length (getRowValues g w) =? 0)%nat; [reflexivity|].
  destruct ((0 <? List.length (featureNames g))%nat
            && negb (List.length (getRowValues g w)
                     =? List.length (featureNames g))%nat); [reflexivity|].
  unfold invoked.
  destruct (scaler g) as [sc|].
  - destruct (negb (List.length (mean sc) =? List.length (getRowValues g w))%nat
              || negb (List.length (scale sc)
                       =? List.length (getRowValues g w))%nat);
      [reflexivity|].
    cbv zeta.
    destruct (run _) as [outputs | e]; [|reflexivity].
    destruct (JS.member (OUTPUT_NAME cfg) outputs); reflexivity.
  - cbv zeta.
    destruct (run _) as [outputs | e]; [|reflexivity].
    destruct (JS.member (OUTPUT_NAME cfg) outputs); reflexivity.
Qed.

Lemma invoked_runs (row : list float) (s : string) (w : Page) :
  runs (invoked cfg run row (with_status s w))
  = (runs w ++ [[(INPUT_NAME cfg, float32Tensor row)]])%list.
Proof.
  unfold invoked. cbv zeta.
  destruct (run _) as [outputs | e]; [|reflexivity].
  destruct (JS.member (OUTPUT_NAME cfg) outputs); reflexivity.
Qed.

Lemma failed_rejected (message s : string) (w : Page) :
  rejectedWith message w (failed message (with_status s w)).
Proof. unfold rejectedWith. cbn. auto. Qed.

Lemma nonempty_length {A : Type} (l : list A) :
  l <> [] -> (List.length l =? 0)%nat = false.
Proof. destruct l; [congruence | reflexivity]. Qed.

Lemma schemaAccepts_test (row : list float) :
  schemaAccepts g row ->
  (0 <? List.length (featureNames g))%nat
  && negb (List.length row =? List.length (featureNames g))%nat = false.
Proof.
  intros [H | H].
  - now rewrite H.
  - rewrite H, Nat.eqb_refl. apply andb_false_r.
Qed.

Lemma schemaRejects_test (row : list float) :
  featureNames g <> [] ->
  List.length row <> List.length (featureNames g) ->
  (0 <? List.length (featureNames g))%nat
  && negb (List.length row =? List.length (featureNames g))%nat = true.
Proof.
  intros Hn Hl. apply andb_true_iff. split.
  - destruct (featureNames g); [congruence | reflexivity].
  - apply negb_true_iff. now apply Nat.eqb_neq.
Qed.

Lemma scalerFits_test (sc : Scaler) (row : list float) :
  List.length (mean sc) = List.length row ->
  List.length (scale sc) = List.length row ->
  negb (List.length (mean sc) =? List.length row)%nat
  || negb (List.length (scale sc) =? List.length row)%nat = false.
Proof. intros -> ->. now rewrite Nat.eqb_refl. Qed.

Lemma scalerMisfit_test (sc : Scaler) (row : list float) :
  List.length (mean sc) <> List.length row
  \/ List.length (scale sc) <> List.length row ->
  negb (List.length (mean sc) =? List.length row)%nat
  || negb (List.length (scale sc) =? List.length row)%nat = true.
Proof.
  intros [H | H]; apply orb_true_iff; [left | right];
    apply negb_true_iff; now apply Nat.eqb_neq.
Qed.

(** A request that called the runner took the path through lines
    168-185. *)
Lemma predict_invoked (w : Page) (feeds : Feeds) :
  runs (predict cfg g w) = (runs w ++ [feeds])%list ->
  exists row : list float,
    feeds = [(INPUT_NAME cfg, float32Tensor row)]
    /\ predict cfg g w = invoked cfg run row (with_status "Running…" w).
Proof.
  rewrite predict_paths. cbv zeta.
  assert (Hfail : forall m s,
            runs (failed m (with_status s w)) = (runs w ++ [feeds])%list ->
            False).
  { intros m s H. cbn in H. apply (f_equal (@List.length Feeds)) in H.
    rewrite length_app in H. cbn in H. lia. }
  assert (Hinv : forall row,
            runs (invoked cfg run row (with_status "Running…" w))
            = (runs w ++ [feeds])%list ->
            exists row' : list float,
              feeds = [(INPUT_NAME cfg, float32Tensor row')]
              /\ invoked cfg run row (with_status "Running…" w)
                 = invoked cfg run row' (with_status "Running…" w)).
  { intros row H. rewrite invoked_runs in H.
    apply app_inv_head in H. injection H as <-. now exists row. }
  destruct (List.length (getRowValues g w) =? 0)%nat;
    [intros H; destruct (Hfail _ _ H)|].
  destruct ((0 <? List.length (featureNames g))%nat
            && negb (List.length (getRowValues g w)
                     =? List.length (featureNames g))%nat);
    [intros H; destruct (Hfail _ _ H)|].
  destruct (scaler g) as [sc|]; [|apply Hinv].
  destruct (negb (List.length (mean sc) =? List.length (getRowValues g w))%nat
            || negb (List.length (scale sc)
                     =? List.length (getRowValues g w))%nat);
    [intros H; destruct (Hfail _ _ H) | apply Hinv].
Qed.

(** C6.  An input vector of length zero is rejected with the EmptyInput
    error "No input values provided."; the check comes before
    preprocessing (whatever the scaler is) and the model runner is not
    invoked. *)
Theorem C6_empty_input_rejected (w : Page) :
  getRowValues g w = [] ->
  rejectedWith "No input values provided." w (predict cfg g w).
Proof.
  intros Hrow. rewrite predict_paths. cbv zeta. rewrite Hrow.
  apply failed_rejected.
Qed.

(** C5 (amended).  In named mode, a non-empty input vector whose length
    differs from the schema length is rejected with the ShapeMismatch
    error "Expected N features, got M.", which names the expected and the
    actual length; the model runner is not invoked. *)
Theorem C5_schema_length_rejected (w : Page) :
  featureNames g <> [] ->
  getRowValues g w <> [] ->
  List.length (getRowValues g w) <> List.length (featureNames g) ->
  rejectedWith
    ("Expected " ++ JS.decimal (N.of_nat (List.length (featureNames g)))
     ++ " features, got "
     ++ JS.decimal (N.of_nat (List.length (getRowValues g w))) ++ ".")
    w (predict cfg g w).
Proof.
  intros Hnamed Hrow Hlen. rewrite predict_paths. cbv zeta.
  rewrite (nonempty_length _ Hrow), (schemaRejects_test _ Hnamed Hlen).
  apply failed_rejected.
Qed.

(** C3 (amended).  When normalization parameters are present and the
    length of the center or of the scale sequence differs from the length
    of a non-empty input vector, the request is rejected with a
    ShapeMismatch error and the model runner is not invoked: nothing is
    truncated, padded or passed on without normalization.  The error is
    "Scaler length does not match feature count." whenever the vector
    passes the schema-length check. *)
Theorem C3_scaler_length_rejected (w : Page) (sc : Scaler) :
  scaler g = Some sc ->
  getRowValues g w <> [] ->
  List.length (mean sc) <> List.length (getRowValues g w)
  \/ List.length (scale sc) <> List.length (getRowValues g w) ->
  exists message : string,
    shapeMismatch g (getRowValues g w) message
    /\ rejectedWith message w (predict cfg g w)
    /\ (schemaAccepts g (getRowValues g w) ->
        message = "Scaler length does not match feature count."%string).
Proof.
  intros Hsc Hrow Hlen. rewrite predict_paths. cbv zeta.
  rewrite (nonempty_length _ Hrow), Hsc, (scalerMisfit_test _ _ Hlen).
  destruct ((0 <? List.length (featureNames g))%nat
            && negb (List.length (getRowValues g w)
                     =? List.length (featureNames g))%nat) eqn:Hschema.
  - exists (expectedMessage (List.length (featureNames g))
              (List.length (getRowValues g w))).
    split; [now right|]. split; [apply failed_rejected|].
    intros Hok. rewrite (schemaAccepts_test _ Hok) in Hschema. discriminate.
  - exists scalerMessage.
    split; [now left|]. split; [apply failed_rejected | reflexivity].
Qed.

(** C4 (amended).  For a request whose input vector is non-empty and
    passes the schema-length check: normalization parameters that are
    present but not length-valid against the vector make the request fail
    with the error "Scaler length does not match feature count.", and
    nothing is passed to the runner; when normalization parameters are
    absent, the raw input vector reaches the model runner unchanged. *)
Theorem C4_misfit_rejected_absent_passthrough (w : Page) :
  getRowValues g w <> [] ->
  schemaAccepts g (getRowValues g w) ->
  (scaler g = None ->
   runs (predict cfg g w)
   = (runs w ++ [[(INPUT_NAME cfg, float32Tensor (getRowValues g w))]])%list)
  /\ (forall sc : Scaler,
        scaler g = Some sc ->
        List.length (mean sc) <> List.length (getRowValues g w)
        \/ List.length (scale sc) <> List.length (getRowValues g w) ->
        rejectedWith "Scaler length does not match feature count."
          w (predict cfg g w)).
Proof.
  intros Hrow Hok. rewrite predict_paths. cbv zeta.
  rewrite (nonempty_length _ Hrow), (schemaAccepts_test _ Hok).
  split.
  - intros ->. apply invoked_runs.
  - intros sc -> Hlen. rewrite (scalerMisfit_test _ _ Hlen).
    apply failed_rejected.
Qed.

(** C2.  For every feature vector of length [n] and normalization
    parameters whose center and scale sequences both have length [n], the
    preprocessed vector has length [n] and its [i]-th element is
    [(input[i] - center[i]) / scale[i]] for every [i < n].  In a request
    that reaches preprocessing, that vector is what the tensor given to
    inference is built from; with no normalization parameters the tensor
    is built from the input vector unchanged. *)
Theorem C2_zscore_preprocessing (w : Page) (values center scaling : list float) :
  (List.length center = List.length values ->
   List.length scaling = List.length values ->
   List.length (zscoreRow values center scaling) = List.length values
   /\ forall i : nat,
        (i < List.length values)%nat ->
        nth i (zscoreRow values center scaling) nan
        = (nth i values nan - nth i center nan) / nth i scaling nan)
  /\ (getRowValues g w <> [] ->
      schemaAccepts g (getRowValues g w) ->
      match scaler g with
      | Some sc =>
          List.length (mean sc) = List.length (getRowValues g w) ->
          List.length (scale sc) = List.length (getRowValues g w) ->
          runs (predict cfg g w)
          = (runs w
             ++ [[(INPUT_NAME cfg,
                   float32Tensor
                     (zscoreRow (getRowValues g w) (mean sc) (scale sc)))]])%list
      | None =>
          runs (predict cfg g w)
          = (runs w
             ++ [[(INPUT_NAME cfg, float32Tensor (getRowValues g w))]])%list
      end).
Proof.
  split.
  - intros _ _. split; [apply zscoreRow_length|].
    intros i Hi. now apply zscoreRow_nth.
  - intros Hrow Hok. rewrite predict_paths. cbv zeta.
    rewrite (nonempty_length _ Hrow), (schemaAccepts_test _ Hok).
    destruct (scaler g) as [sc|]; [|apply invoked_runs].
    intros Hm Hs. rewrite (scalerFits_test _ _ Hm Hs). apply invoked_runs.
Qed.

(** X19.  When the configured output name is not a property every object
    inherits, then once the runner has been called with [feeds]: a result
    set with no entry under that name makes the request fail with the
    MissingOutput error, which names the configured output; a failure of
    the runner itself is shown with the runner's own message, verbatim;
    neither touches the result element.  An entry under the name gives
    "Done." and the decoded text. *)
Theorem missing_output_reported (w : Page) (feeds : Feeds) :
  JS.inheritedName (OUTPUT_NAME cfg) = false ->
  runs (predict cfg g w) = (runs w ++ [feeds])%list ->
  match run feeds with
  | Rejected e =>
      status (predict cfg g w) = ("Error: " ++ e)%string
      /\ result (predict cfg g w) = result w
  | Resolved outputs =>
      match JS.get (OUTPUT_NAME cfg) outputs with
      | None =>
          status (predict cfg g w)
          = ("Error: Output named " ++ dquote ++ OUTPUT_NAME cfg ++ dquote
             ++ " not found. Check OUTPUT_NAME.")%string
          /\ result (predict cfg g w) = result w
      | Some out =>
          status (predict cfg g w) = "Done."%string
          /\ result (predict cfg g w) = resultText out
      end
  end.
Proof.
  intros Hplain Hruns.
  destruct (predict_invoked w feeds Hruns) as (row & -> & ->).
  unfold invoked, JS.member. cbv zeta. rewrite Hplain.
  destruct (run _) as [outputs | e]; [|now split].
  destruct (JS.get (OUTPUT_NAME cfg) outputs); now split.
Qed.

(** When the configured output name is one every object inherits and the
    result set has no entry under it, the lookup finds the inherited
    property: the request fails on [out.data], not with the MissingOutput
    error. *)
Lemma inherited_output_name (w : Page) (feeds : Feeds)
    (outputs : list (string * Output)) :
  JS.inheritedName (OUTPUT_NAME cfg) = true ->
  runs (predict cfg g w) = (runs w ++ [feeds])%list ->
  run feeds = Resolved outputs ->
  JS.get (OUTPUT_NAME cfg) outputs = None ->
  status (predict cfg g w) = ("Error: " ++ notIterableMessage)%string
  /\ result (predict cfg g w) = result w.
Proof.
  intros Hinh Hruns Hrun Hget.
  destruct (predict_invoked w feeds Hruns) as (row & -> & ->).
  unfold invoked, JS.member. cbv zeta. rewrite Hrun, Hget, Hinh.
  now split.
Qed.

End Requests.

(* ===================================================================== *)
(** ** Input assembly *)
(* ===================================================================== *)

Section Input.

Lemma or_else_empty (s : string) : JS.or_else s "" = s.
Proof. now destruct s. Qed.

(** C10 (amended).  When the Quick Paste string is non-empty after
    trimming white space, it alone determines the input vector: the
    per-feature values (and the schema) are ignored.  Only when it is
    empty or all white space are the per-feature values read, one per
    schema name in schema order. *)
Theorem C10_csv_precedence (g g' : Globals) (w w' : Page) :
  csvRow w' = csvRow w ->
  (JS.trim (csvRow w) <> ""%string ->
   getRowValues g' w' = getRowValues g w)
  /\ (JS.trim (csvRow w) = ""%string ->
      getRowValues g w
      = map (fun n => JS.parseFloat (JS.or_else (inputValue w ("f_" ++ n)) "0"))
          (featureNames g)).
Proof.
  intros Hcsv. unfold getRowValues. rewrite Hcsv, or_else_empty. split.
  - destruct (JS.trim (csvRow w)); [congruence | reflexivity].
  - intros ->. cbn. now destruct (featureNames g).
Qed.

End Input.

(* ===================================================================== *)
(** ** The requests of the concrete pages *)
(* ===================================================================== *)

Lemma C2_zscore_preprocessing_witness :
  getRowValues gXY (page "") = [3; 5]
  /\ List.length (zscoreRow [3; 5] [1; 1] [2; 2]) = 2%nat
  /\ nth 0 (zscoreRow [3; 5] [1; 1] [2; 2]) nan = (3 - 1) / 2
  /\ nth 1 (zscoreRow [3; 5] [1; 1] [2; 2]) nan = (5 - 1) / 2
  /\ runs (predict shipped gXY (page ""))
     = [[("input"%string, float32Tensor (zscoreRow [3; 5] [1; 1] [2; 2]))]].
Proof.
  assert (Hrow : getRowValues gXY (page "") = [3; 5])
    by (vm_compute; reflexivity).
  destruct (C2_zscore_preprocessing shipped gXY echo eq_refl (page "")
              [3; 5] [1; 1] [2; 2]) as [Hfun Hreq].
  destruct (Hfun eq_refl eq_refl) as [Hlen Hnth].
  split; [exact Hrow|]. split; [exact Hlen|].
  split; [apply (Hnth 0%nat); cbn; lia|].
  split; [apply (Hnth 1%nat); cbn; lia|].
  rewrite Hrow in Hreq. apply Hreq.
  - discriminate.
  - now right.
  - reflexivity.
  - reflexivity.
Defined.

(** C3 as stated fails on an empty input vector: with a scaler of length
    2 and the Quick Paste text [abc] (no numeric token, so the vector has
    length 0), the scaler lengths differ from the vector's length, yet
    the error shown is EmptyInput, not a ShapeMismatch error. *)
Lemma C3_counterexample :
  scaler gXY = Some {| mean := [1; 1]; scale := [2; 2] |}
  /\ List.length [1; 1] <> List.length (getRowValues gXY (page "abc"))
  /\ rejectedWith "No input values provided." (page "abc")
       (predict shipped gXY (page "abc"))
  /\ ~ (exists message : string,
          shapeMismatch gXY (getRowValues gXY (page "abc")) message
          /\ rejectedWith message (page "abc")
               (predict shipped gXY (page "abc"))).
Proof.
  split; [reflexivity|].
  split; [vm_compute; discriminate|].
  split; [vm_compute; auto|].
  intros (message & Hclass & Hstatus & _).
  vm_compute in Hstatus. injection Hstatus as <-.
  destruct Hclass as [H | H]; vm_compute in H; discriminate.
Qed.

Lemma C3_scaler_length_rejected_witness :
  scaler gScalerOnly = Some {| mean := [1; 1]; scale := [2; 2] |}
  /\ getRowValues gScalerOnly (page "1,2,3") = [1; 2; 3]
  /\ exists message : string,
       shapeMismatch gScalerOnly [1; 2; 3] message
       /\ rejectedWith message (page "1,2,3")
            (predict shipped gScalerOnly (page "1,2,3"))
       /\ (schemaAccepts gScalerOnly [1; 2; 3] ->
           message = "Scaler length does not match feature count."%string).
Proof.
  split; [reflexivity|].
  split; [vm_compute; reflexivity|].
  change [1; 2; 3] with (getRowValues gScalerOnly (page "1,2,3")).
  apply (C3_scaler_length_rejected shipped gScalerOnly echo eq_refl
           (page "1,2,3") {| mean := [1; 1]; scale := [2; 2] |}).
  - reflexivity.
  - vm_compute. discriminate.
  - left. vm_compute. lia.
Defined.

(** C4 as stated fails: with a scaler of length 2 and the input vector
    [1, 2, 3], the parameters are present but not length-valid; the raw
    vector is not passed to the runner and an error is raised. *)
Lemma C4_counterexample :
  scaler gScalerOnly = Some {| mean := [1; 1]; scale := [2; 2] |}
  /\ getRowValues gScalerOnly (page "1,2,3") = [1; 2; 3]
  /\ runs (predict shipped gScalerOnly (page "1,2,3")) = []
  /\ runs (predict shipped gScalerOnly (page "1,2,3"))
     <> (runs (page "1,2,3")
         ++ [[("input"%string, float32Tensor [1; 2; 3])]])%list
  /\ status (predict shipped gScalerOnly (page "1,2,3"))
     = "Error: Scaler length does not match feature count."%string.
Proof.
  split; [reflexivity|].
  split; [vm_compute; reflexivity|].
  split; [vm_compute; reflexivity|].
  split; [vm_compute; discriminate|].
  vm_compute. reflexivity.
Qed.

Lemma C4_misfit_rejected_absent_passthrough_witness :
  getRowValues gFree (page "1,2,3") = [1; 2; 3]
  /\ schemaAccepts gFree [1; 2; 3]
  /\ runs (predict shipped gFree (page "1,2,3"))
     = [[("input"%string, float32Tensor [1; 2; 3])]].
Proof.
  assert (Hrow : getRowValues gFree (page "1,2,3") = [1; 2; 3])
    by (vm_compute; reflexivity).
  split; [exact Hrow|]. split; [now left|].
  destruct (C4_misfit_rejected_absent_passthrough shipped gFree echo eq_refl
              (page "1,2,3")) as [Hnone _].
  - rewrite Hrow. discriminate.
  - now left.
  - rewrite Hrow in Hnone. exact (Hnone eq_refl).
Defined.

(** C5 as stated fails on an empty input vector: in named mode with the
    schema [x, y] and the Quick Paste text [abc], the vector has length
    0, which differs from 2, yet the error shown is EmptyInput and not
    "Expected 2 features, got 0.". *)
Lemma C5_counterexample :
  featureNames gXY = ["x"; "y"]%string
  /\ List.length (getRowValues gXY (page "abc")) = 0%nat
  /\ status (predict shipped gXY (page "abc"))
     = "Error: No input values provided."%string
  /\ ~ rejectedWith "Expected 2 features, got 0." (page "abc")
         (predict shipped gXY (page "abc")).
Proof.
  split; [reflexivity|].
  split; [vm_compute; reflexivity|].
  split; [vm_compute; reflexivity|].
  intros (Hstatus & _). vm_compute in Hstatus. discriminate.
Qed.

Lemma C5_schema_length_rejected_witness :
  featureNames gXY = ["x"; "y"]%string
  /\ getRowValues gXY (page "1,2,3") = [1; 2; 3]
  /\ rejectedWith "Expected 2 features, got 3." (page "1,2,3")
       (predict shipped gXY (page "1,2,3")).
Proof.
  assert (Hrow : getRowValues gXY (page "1,2,3") = [1; 2; 3])
    by (vm_compute; reflexivity).
  split; [reflexivity|]. split; [exact Hrow|].
  pose proof (C5_schema_length_rejected shipped gXY echo eq_refl
                (page "1,2,3")) as H.
  rewrite Hrow in H. apply H.
  - discriminate.
  - discriminate.
  - cbn. lia.
Defined.

Lemma C6_empty_input_rejected_witness :
  getRowValues gFree (page "") = []
  /\ rejectedWith "No input values provided." (page "")
       (predict shipped gFree (page "")).
Proof.
  split; [reflexivity|].
  apply (C6_empty_input_rejected shipped gFree echo eq_refl (page "")).
  reflexivity.
Defined.

Lemma missing_output_reported_witness :
  runs (predict shipped (init shipped None misnamed) (page "1,2"))
  = [[("input"%string, float32Tensor [1; 2])]]
  /\ status (predict shipped (init shipped None misnamed) (page "1,2"))
     = ("Error: Output named " ++ dquote ++ "output" ++ dquote
        ++ " not found. Check OUTPUT_NAME.")%string
  /\ result (predict shipped (init shipped None misnamed) (page "1,2"))
     = result (page "1,2").
Proof.
  assert (Hruns :
    runs (predict shipped (init shipped None misnamed) (page "1,2"))
    = (runs (page "1,2") ++ [[("input"%string, float32Tensor [1; 2])]])%list)
    by (vm_compute; reflexivity).
  split; [exact Hruns|].
  exact (missing_output_reported shipped (init shipped None misnamed)
           misnamed eq_refl (page "1,2") _ eq_refl Hruns).
Defined.

(** C7 fails on the code.  With [OUTPUT_NAME = "toString"] and a runner
    whose result set holds only [yhat], the result set does not contain
    the configured output name, yet [outputs[OUTPUT_NAME]] reads the
    function every object inherits: the check of line 175 passes and the
    request fails on [out.data] with a TypeError, not with the
    MissingOutput error. *)
Theorem C7_inherited_output_name :
  JS.get (OUTPUT_NAME outputToString)
    [("yhat"%string, {| data := TypedArray [1] |})] = None
  /\ runs (predict outputToString (init outputToString None misnamed)
             (page "1,2"))
     = [[("input"%string, float32Tensor [1; 2])]]
  /\ status (predict outputToString (init outputToString None misnamed)
               (page "1,2"))
     = ("Error: " ++ notIterableMessage)%string
  /\ status (predict outputToString (init outputToString None misnamed)
               (page "1,2"))
     <> ("Error: " ++ missingOutputMessage "toString")%string.
Proof.
  assert (Hruns :
    runs (predict outputToString (init outputToString None misnamed)
            (page "1,2"))
    = (runs (page "1,2") ++ [[("input"%string, float32Tensor [1; 2])]])%list)
    by (vm_compute; reflexivity).
  destruct (inherited_output_name outputToString
              (init outputToString None misnamed) misnamed eq_refl
              (page "1,2") [("input"%string, float32Tensor [1; 2])]
              [("yhat"%string, {| data := TypedArray [1] |})]
              eq_refl Hruns eq_refl eq_refl) as [Hstatus _].
  split; [reflexivity|]. split; [exact Hruns|].
  split; [exact Hstatus|].
  rewrite Hstatus. vm_compute. discriminate.
Qed.

(** C10 as stated fails on a Quick Paste string that is not empty but is
    all white space: the per-feature values are read, so two pages with
    the same string give different input vectors. *)
Lemma C10_counterexample :
  csvRow (page " ") = csvRow (pageZeros " ")
  /\ csvRow (page " ") <> ""%string
  /\ getRowValues gAB (page " ") = [5; 0]
  /\ getRowValues gAB (pageZeros " ") = [0; 0]
  /\ getRowValues gAB (page " ") <> getRowValues gAB (pageZeros " ").
Proof.
  split; [reflexivity|].
  split; [discriminate|].
  split; [vm_compute; reflexivity|].
  split; [vm_compute; reflexivity|].
  intros H.
  apply (f_equal (fun r => match r with
                           | x :: _ => Prim2SF x
                           | [] => S754_nan
                           end)) in H.
  vm_compute in H. discriminate.
Qed.

Lemma C10_csv_precedence_witness :
  csvRow (pageZeros "1, 2") = csvRow (page "1, 2")
  /\ getRowValues gFree (pageZeros "1, 2") = getRowValues gAB (page "1, 2")
  /\ getRowValues gAB (page "1, 2") = [1; 2].
Proof.
  split; [reflexivity|].
  split; [|vm_compute; reflexivity].
  apply (C10_csv_precedence gAB gFree (page "1, 2") (pageZeros "1, 2")
           eq_refl).
  vm_compute. discriminate.
Defined.

(* ===================================================================== *)
(** ** Number formatting *)
(* ===================================================================== *)

Module Formatting.

Lemma string_of_uint_digits (d : Decimal.uint) :
  digits (NilEmpty.string_of_uint d) = true.
Proof. induction d; cbn; auto. Qed.

Lemma decimal_digits (n : N) : digits (JS.decimal n) = true.
Proof.
  unfold JS.decimal, NilZero.string_of_uint.
  destruct (N.to_uint n); try reflexivity; apply string_of_uint_digits.
Qed.

Lemma decimal_head (n : N) :
  exists (c : ascii) (r : string),
    JS.decimal n = String c r /\ JS.isDigit c = true.
Proof.
  pose proof (decimal_digits n) as H. unfold digits in H.
  destruct (JS.decimal n) as [|c r] eqn:E.
  - unfold JS.decimal, NilZero.string_of_uint in E.
    destruct (N.to_uint n); discriminate.
  - cbn in H. apply andb_true_iff in H as [Hc _]. now exists c, r.
Qed.


Lemma forallb_rev {A : Type} (f : A -> bool) (l : list A) :
  forallb f (rev l) = forallb f l.
Proof.
  induction l as [|x l IH]; [reflexivity|].
  cbn. rewrite forallb_app, IH. cbn. rewrite andb_true_r. apply andb_comm.
Qed.

(** The numeral of [n] denotes [n]. *)
Lemma uint_value_acc (d : Decimal.uint) (acc : positive) :
  fold_left (fun a c => 10 * a + JS.digitVal c)%Z
    (list_ascii_of_string (NilEmpty.string_of_uint d)) (Z.pos acc)
  = Z.pos (Pos.of_uint_acc d acc).
Proof.
  revert acc.
  induction d; intros acc;
    cbn [NilEmpty.string_of_uint list_ascii_of_string fold_left Pos.of_uint_acc];
    [reflexivity | ..];
    rewrite <- IHd; f_equal;
    match goal with
    | |- context [JS.digitVal ?c] =>
        let v := eval vm_compute in (JS.digitVal c) in
        change (JS.digitVal c) with v
    end; lia.
Qed.

Lemma uint_value (d : Decimal.uint) :
  JS.digitsValue (list_ascii_of_string (NilEmpty.string_of_uint d))
  = Z.of_N (Pos.of_uint d).
Proof.
  unfold JS.digitsValue.
  induction d;
    cbn [NilEmpty.string_of_uint list_ascii_of_string fold_left Pos.of_uint];
    [reflexivity | exact IHd | ..];
    cbn [Z.of_N]; rewrite <- uint_value_acc; reflexivity.
Qed.

Lemma decimal_value (n : N) :
  JS.digitsValue (list_ascii_of_string (JS.decimal n)) = Z.of_N n.
Proof.
  rewrite <- (DecimalN.Unsigned.of_to n) at 2.
  unfold JS.decimal, NilZero.string_of_uint, N.of_uint.
  destruct (N.to_uint n); try (rewrite <- uint_value; reflexivity).
Qed.

Lemma leading_zeros_value (k : nat) (l : list ascii) :
  JS.digitsValue (repeat "0"%char k ++ l) = JS.digitsValue l.
Proof.
  unfold JS.digitsValue. rewrite fold_left_app. f_equal.
  induction k as [|k IH]; [reflexivity | exact IH].
Qed.

(** The parts of [fixed6 n]: the digits before the point, of which there
    is at least one, and the six digits after it; read together they
    denote [n]. *)
Lemma fixed6_parts (n : Z) :
  exists a b : list ascii,
    JS.fixed6 n = string_of_list_ascii (a ++ "."%char :: b)
    /\ a <> []
    /\ List.length b = 6%nat
    /\ forallb JS.isDigit a = true
    /\ forallb JS.isDigit b = true
    /\ ((0 <= n)%Z -> JS.digitsValue (a ++ b) = n).
Proof.
  unfold JS.fixed6. cbv zeta.
  pose proof (decimal_digits (Z.to_N n)) as Hd. unfold digits in Hd.
  pose proof (decimal_value (Z.to_N n)) as Hv.
  set (ds := list_ascii_of_string (JS.decimal (Z.to_N n))) in *.
  set (l := if (List.length ds <=? 6)%nat
            then (repeat "0"%char (7 - List.length ds) ++ ds)%list else ds).
  assert (Hl : forallb JS.isDigit l = true).
  { unfold l. destruct (List.length ds <=? 6)%nat; [|exact Hd].
    rewrite forallb_app, Hd, andb_true_r.
    apply forallb_forall. intros x Hx. apply repeat_spec in Hx. now subst. }
  assert (Hlen : (7 <= List.length l)%nat).
  { unfold l. destruct (List.length ds <=? 6)%nat eqn:Hle.
    - apply Nat.leb_le in Hle. rewrite length_app, repeat_length. lia.
    - apply Nat.leb_gt in Hle. lia. }
  assert (Hval : JS.digitsValue l = Z.of_N (Z.to_N n)).
  { unfold l. destruct (List.length ds <=? 6)%nat; [|exact Hv].
    now rewrite leading_zeros_value. }
  set (k := (List.length l - 6)%nat).
  exists (firstn k l), (skipn k l).
  rewrite <- (firstn_skipn k l), forallb_app in Hl.
  apply andb_true_iff in Hl as [Ha Hb].
  split; [reflexivity|].
  split.
  { intros E. apply (f_equal (@List.length ascii)) in E.
    rewrite length_firstn in E. cbn in E. unfold k in E. lia. }
  split; [rewrite length_skipn; unfold k; lia|].
  split; [exact Ha|]. split; [exact Hb|].
  intros Hn. rewrite firstn_skipn, Hval. now apply Z2N.id.
Qed.

(** Digits, a point and six digits make a six-decimal numeral that
    starts with a digit. *)
Lemma sixDecimals_parts (a b : list ascii) :
  a <> [] ->
  List.length b = 6%nat ->
  forallb JS.isDigit a = true ->
  forallb JS.isDigit b = true ->
  exists (c : ascii) (r : string),
    string_of_list_ascii (a ++ "."%char :: b) = String c r
    /\ JS.isDigit c = true
    /\ sixDecimals (String c r) = true.
Proof.
  intros Hne Lb Ha Hb.
  destruct a as [|c a]; [congruence|].
  cbn [forallb] in Ha. apply andb_true_iff in Ha as [Hc Ha].
  exists c, (string_of_list_ascii (a ++ "."%char :: b)).
  split; [reflexivity|]. split; [exact Hc|].
  unfold sixDecimals.
  change (list_ascii_of_string
            (String c (string_of_list_ascii (a ++ "."%char :: b))))
    with (c :: list_ascii_of_string
                 (string_of_list_ascii (a ++ "."%char :: b))).
  rewrite list_ascii_of_string_of_list_ascii.
  change (c :: a ++ "."%char :: b)%list
    with ((c :: a) ++ "."%char :: b)%list.
  rewrite rev_app_distr. cbn [rev]. rewrite <- !app_assoc.
  rewrite <- (forallb_rev JS.isDigit b) in Hb.
  rewrite <- (length_rev b) in Lb.
  destruct (rev b) as [|d6 [|d5 [|d4 [|d3 [|d2 [|d1 [|x t]]]]]]];
    cbn in Lb; try lia.
  cbn [app]. cbn [forallb] in Hb.
  repeat (apply andb_true_iff in Hb as [? Hb]).
  assert (Hr : forallb JS.isDigit (rev a ++ [c])%list = true).
  { rewrite forallb_app, forallb_rev, Ha. cbn. now rewrite Hc. }
  destruct (rev a ++ [c])%list as [|i r] eqn:Er.
  - destruct (rev a); discriminate.
  - cbn [forallb]. cbn [forallb] in Hr.
    repeat match goal with
           | H : JS.isDigit _ = true |- _ => rewrite H; clear H
           end.
    cbn. exact Hr.
Qed.

Lemma fixed6_shape (n : Z) :
  exists (c : ascii) (r : string),
    JS.fixed6 n = String c r
    /\ JS.isDigit c = true
    /\ sixDecimals (String c r) = true.
Proof.
  destruct (fixed6_parts n) as (a & b & -> & Hne & Lb & Ha & Hb & _).
  now apply sixDecimals_parts.
Qed.

(** [scaled6] is the integer nearest to [|x| * 10^6], the larger one on a
    tie. *)
Lemma scaled6_nearest (m : positive) (e : Z) :
  (0 <= JS.scaled6 m e
   /\ - JS.magDen e
      <= 2 * (JS.magNum m e * 10 ^ 6) - 2 * JS.magDen e * JS.scaled6 m e
      < JS.magDen e)%Z.
Proof.
  unfold JS.scaled6.
  assert (HD : (0 < JS.magDen e)%Z).
  { unfold JS.magDen, JS.pow2. destruct (0 <=? e)%Z eqn:He; [lia|].
    apply Z.leb_gt in He. apply Z.pow_pos_nonneg; lia. }
  assert (HN : (0 <= JS.magNum m e)%Z).
  { unfold JS.magNum, JS.pow2. destruct (0 <=? e)%Z eqn:He; [|lia].
    apply Z.leb_le in He.
    apply Z.mul_nonneg_nonneg; [lia | now apply Z.pow_nonneg]. }
  set (D := JS.magDen e) in *. set (N := JS.magNum m e) in *.
  pose proof (Z.div_mod (2 * N * 10 ^ 6 + D) (2 * D) ltac:(lia)) as Hdm.
  pose proof (Z.mod_pos_bound (2 * N * 10 ^ 6 + D) (2 * D) ltac:(lia)) as Hb.
  split.
  - apply Z.div_pos; lia.
  - lia.
Qed.

(** A finite value of magnitude below [10^21] is printed as its sign and
    a six-decimal numeral whose digits denote the integer nearest to
    [|x| * 10^6]. *)
Lemma toFixed6_value (x : float) (s : bool) (m : positive) (e : Z) :
  Prim2SF x = S754_finite s m e ->
  JS.below1e21 m e = true ->
  exists a b : list ascii,
    JS.toFixed6 x
    = ((if s then "-" else "")
       ++ string_of_list_ascii (a ++ "."%char :: b))%string
    /\ a <> []
    /\ List.length b = 6%nat
    /\ forallb JS.isDigit (a ++ b) = true
    /\ (- JS.magDen e
        <= 2 * (JS.magNum m e * 10 ^ 6)
           - 2 * JS.magDen e * JS.digitsValue (a ++ b)
        < JS.magDen e)%Z.
Proof.
  intros Hx Hsmall. unfold JS.toFixed6. rewrite Hx, Hsmall.
  destruct (scaled6_nearest m e) as [Hpos Hnear].
  destruct (fixed6_parts (JS.scaled6 m e))
    as (a & b & -> & Hne & Lb & Ha & Hb & Hv).
  exists a, b. split; [reflexivity|]. split; [exact Hne|].
  split; [exact Lb|]. split; [now rewrite forallb_app, Ha, Hb|].
  now rewrite (Hv Hpos).
Qed.


Lemma digit_is_ascii (c : ascii) :
  JS.isDigit c = true -> (nat_of_ascii c <? 128)%nat = true.
Proof.
  unfold JS.isDigit. intros H. apply andb_true_iff in H as [_ H].
  apply Nat.leb_le in H. apply Nat.ltb_lt. lia.
Qed.

Lemma shortest_decimal (fuel k : nat) (X : Z) (d : nat) (m : positive)
    (e : Z) :
  exists n : N, fst (JS.shortest fuel k X d m e) = JS.decimal n.
Proof.
  revert k. induction fuel as [|fuel IH]; intros k; cbn [JS.shortest];
    cbv zeta;
    destruct (_ || _);
    try (destruct (_ =? _)%Z; [now exists 1%N | eexists; reflexivity]).
  - eexists; reflexivity.
  - apply IH.
Qed.

Lemma toStringLarge_head (m : positive) (e : Z) :
  exists (c : ascii) (r : string),
    JS.toStringLarge m e = String c r /\ JS.isDigit c = true.
Proof.
  unfold JS.toStringLarge. cbv zeta.
  destruct (shortest_decimal 20 1 (Z.pos m * JS.pow2 e)
              (JS.decimalLength (Z.pos m * JS.pow2 e)) m e) as [n Hn].
  destruct (JS.shortest _ _ _ _ _ _) as [ds ex]. cbn [fst] in Hn. subst ds.
  destruct (decimal_head n) as (c & r & -> & Hc).
  unfold JS.exponentForm. destruct r; now eexists _, _.
Qed.

(** The text printed for a number always starts with a character of the
    ASCII range. *)
Lemma toFixed6_head (x : float) :
  exists (c : ascii) (r : string),
    JS.toFixed6 x = String c r /\ (nat_of_ascii c <? 128)%nat = true.
Proof.
  unfold JS.toFixed6.
  destruct (Prim2SF x) as [s | s | | s m e].
  - now eexists _, _.
  - destruct s; now eexists _, _.
  - now eexists _, _.
  - destruct s; cbn [append].
    + now eexists _, _.
    + destruct (JS.below1e21 m e).
      * destruct (fixed6_shape (JS.scaled6 m e)) as (c & r & -> & Hc & _).
        exists c, r. split; [reflexivity | now apply digit_is_ascii].
      * destruct (toStringLarge_head m e) as (c & r & -> & Hc).
        exists c, r. split; [reflexivity | now apply digit_is_ascii].
Qed.

Lemma join_head (sep x : string) (l : list string) (c : ascii) (r : string) :
  x = String c r -> exists r' : string, JS.join sep (x :: l) = String c r'.
Proof.
  intros ->. destruct l; cbn [JS.join append]; now eexists.
Qed.

End Formatting.

(* ===================================================================== *)
(** ** Result decoding *)
(* ===================================================================== *)

Section Decoding.

Lemma predText_join (out : Output) :
  predText out
  = JS.join ", " (map JS.toFixed6 (bufferValues (data out))).
Proof. unfold predText, JS.Number. now destruct (data out). Qed.

Lemma sentinel_head :
  exists r : string, sentinel = String (ascii_of_nat 226) r.
Proof. now eexists. Qed.

(** The text of a non-empty buffer starts with an ASCII character. *)
Lemma predText_head (out : Output) :
  bufferValues (data out) <> [] ->
  exists (c : ascii) (r : string),
    predText out = String c r /\ (nat_of_ascii c <? 128)%nat = true.
Proof.
  intros Hne. rewrite predText_join.
  destruct (bufferValues (data out)) as [|v values]; [congruence|].
  cbn [map].
  destruct (Formatting.toFixed6_head v) as (c & r & Hv & Hc).
  destruct (Formatting.join_head ", " _ (map JS.toFixed6 values) c r Hv)
    as [r' Hj].
  now exists c, r'.
Qed.


(** C9 (amended).  An empty output buffer is displayed as the sentinel
    placeholder, which is not the empty string; a non-empty buffer is
    displayed as its decoded text, which is neither the empty string nor
    the sentinel.  The sentinel is also the text [resetUI] puts into the
    result element. *)
Theorem C9_sentinel (out : Output) (g : Globals) (w : Page) :
  (bufferValues (data out) = [] -> resultText out = sentinel)
  /\ sentinel <> ""%string
  /\ (bufferValues (data out) <> [] ->
      resultText out = predText out
      /\ resultText out <> ""%string
      /\ resultText out <> sentinel)
  /\ result (resetUI g w) = sentinel.
Proof.
  split.
  { intros H. unfold resultText. rewrite predText_join, H. reflexivity. }
  split; [discriminate|].
  split; [|reflexivity].
  intros Hne. unfold resultText.
  destruct (predText_head out Hne) as (c & r & -> & Hc).
  cbn [JS.or_else].
  split; [reflexivity|]. split; [discriminate|].
  destruct sentinel_head as [r' ->]. intros [= -> _].
  vm_compute in Hc. discriminate.
Qed.

End Decoding.



(** C9 as stated fails: the text displayed for an empty result is the
    text the page displays when there is no result.  With a runner whose
    output buffer is empty, a prediction succeeds and the result element
    reads exactly as it does after [resetUI]. *)
Lemma C9_counterexample :
  result (resetUI (init shipped None silent) (page "1")) = sentinel
  /\ status (predict shipped (init shipped None silent) (page "1"))
     = "Done."%string
  /\ runs (predict shipped (init shipped None silent) (page "1"))
     = [[("input"%string, float32Tensor [1])]]
  /\ result (predict shipped (init shipped None silent) (page "1"))
     = result (resetUI (init shipped None silent) (page "1")).
Proof. repeat split; vm_compute; reflexivity. Qed.

Lemma C9_sentinel_witness :
  resultText {| data := TypedArray [] |} = sentinel
  /\ resultText {| data := TypedArray [0] |} = "0.000000"%string
  /\ resultText {| data := TypedArray [0] |} <> sentinel.
Proof.
  destruct (C9_sentinel {| data := TypedArray [] |} gFree (page ""))
    as (Hempty & _).
  destruct (C9_sentinel {| data := TypedArray [0] |} gFree (page ""))
    as (_ & _ & Hfull & _).
  split; [now apply Hempty|].
  split; [vm_compute; reflexivity|].
  apply Hfull. discriminate.
Defined.

(* ===================================================================== *)
(** ** Locating the descriptor *)
(* ===================================================================== *)

Section Descriptor.

Lemma noSlash_app_slash (a b : string) :
  noSlash (a ++ String "/" b) = false.
Proof.
  induction a as [|c a IH]; cbn; [reflexivity|].
  rewrite IH. apply andb_false_r.
Qed.

Lemma replaceFinalSegment_noSlash (r s : string) :
  s <> ""%string -> noSlash s = true -> replaceFinalSegment r s = r.
Proof.
  destruct s as [|c s]; [congruence|]. intros _ H.
  cbn [replaceFinalSegment]. now rewrite H.
Qed.

Lemma replaceFinalSegment_folder (r dir file : string) :
  file <> ""%string -> noSlash file = true ->
  replaceFinalSegment r (dir ++ String "/" file)
  = (dir ++ String "/" r)%string.
Proof.
  intros Hne Hfile. induction dir as [|c dir IH].
  - cbn. now rewrite (replaceFinalSegment_noSlash r file Hne Hfile).
  - change (String c dir ++ String "/" file)%string
      with (String c (dir ++ String "/" file)).
    cbn [replaceFinalSegment noSlash].
    rewrite noSlash_app_slash, andb_false_r, IH. reflexivity.
Qed.

Lemma replaceFinalSegment_trailing (r dir : string) :
  replaceFinalSegment r (dir ++ "/") = (dir ++ "/")%string.
Proof.
  induction dir as [|c dir IH]; [reflexivity|].
  change (String c dir ++ "/")%string with (String c (dir ++ "/")).
  cbn [replaceFinalSegment noSlash].
  rewrite noSlash_app_slash, andb_false_r, IH. reflexivity.
Qed.

(** X1.  When the model URL is a folder path followed by a file name, the
    first candidate is [meta.json] in that same folder and the second is
    [meta.json] at the root. *)
Theorem candidates_same_folder (cfg : Config) (dir file : string) :
  MODEL_URL cfg = (dir ++ "/" ++ file)%string ->
  file <> ""%string ->
  noSlash file = true ->
  candidates cfg = [(dir ++ "/meta.json")%string; "meta.json"%string].
Proof.
  intros Hurl Hne Hfile. unfold candidates. rewrite Hurl.
  change (dir ++ "/" ++ file)%string with (dir ++ String "/" file)%string.
  now rewrite (replaceFinalSegment_folder _ dir file Hne Hfile).
Qed.

(** X3.  When the model URL is empty or ends with a slash, the pattern
    finds no final segment and nothing is replaced: the first candidate
    is the model URL itself. *)
Theorem candidates_no_final_segment (cfg : Config) :
  MODEL_URL cfg = ""%string
  \/ (exists dir : string, MODEL_URL cfg = (dir ++ "/")%string) ->
  candidates cfg = [MODEL_URL cfg; "meta.json"%string].
Proof.
  unfold candidates. intros [-> | [dir ->]]; [reflexivity|].
  now rewrite replaceFinalSegment_trailing.
Qed.

Lemma loop_first_usable (net : Network) (pre : list string) (url : string)
    (post fetched : list string) (parsed : option Meta) :
  Forall (fun u => usable net u = None) pre ->
  usable net url = Some parsed ->
  tryLoadMeta_loop net (pre ++ url :: post) fetched
  = (parsed, (fetched ++ pre ++ [url])%list).
Proof.
  intros Hpre Hurl. revert fetched.
  induction Hpre as [|u pre Hu _ IH]; intros fetched.
  - cbn [app tryLoadMeta_loop]. unfold usable in Hurl.
    destruct (net url) as [|[|] [v|]]; try discriminate.
    now injection Hurl as ->.
  - cbn [app tryLoadMeta_loop]. unfold usable in Hu.
    destruct (net u) as [|[|] [v|]]; try discriminate;
      rewrite IH, <- app_assoc; reflexivity.
Qed.

Lemma loop_none_usable (net : Network) (urls fetched : list string) :
  Forall (fun u => usable net u = None) urls ->
  tryLoadMeta_loop net urls fetched = (None, (fetched ++ urls)%list).
Proof.
  intros H. revert fetched.
  induction H as [|u urls Hu _ IH]; intros fetched.
  - cbn. now rewrite app_nil_r.
  - cbn [tryLoadMeta_loop]. unfold usable in Hu.
    destruct (net u) as [|[|] [v|]]; try discriminate;
      rewrite IH, <- app_assoc; reflexivity.
Qed.

(** X4.  The first candidate, in order, whose response is ok and whose
    body parses decides the result: its parsed value is returned, the
    candidates before it have been fetched and none after it is. *)
Theorem tryLoadMeta_first_usable (cfg : Config) (net : Network)
    (pre : list string) (url : string) (post : list string)
    (parsed : option Meta) :
  candidates cfg = (pre ++ url :: post)%list ->
  Forall (fun u => usable net u = None) pre ->
  usable net url = Some parsed ->
  tryLoadMeta cfg net = (parsed, (pre ++ [url])%list).
Proof.
  intros Hc Hpre Hurl. unfold tryLoadMeta. rewrite Hc.
  apply (loop_first_usable net pre url post [] parsed Hpre Hurl).
Qed.

(** X5.  When no candidate is usable (the fetch fails, the response is not
    ok, or the body does not parse), the result is [null] and no error is
    raised; every candidate has been fetched once, in order. *)
Theorem tryLoadMeta_none_usable (cfg : Config) (net : Network) :
  Forall (fun u => usable net u = None) (candidates cfg) ->
  tryLoadMeta cfg net = (None, candidates cfg).
Proof.
  intros H. unfold tryLoadMeta. now rewrite loop_none_usable.
Qed.

(** X2.  When the model URL is a bare file name, both candidates are the
    same URL [meta.json]; if it is not usable it is fetched twice. *)
Theorem candidates_bare_name (cfg : Config) (net : Network) :
  MODEL_URL cfg <> ""%string ->
  noSlash (MODEL_URL cfg) = true ->
  candidates cfg = ["meta.json"; "meta.json"]%string
  /\ (usable net "meta.json" = None ->
      tryLoadMeta cfg net = (None, ["meta.json"; "meta.json"]%string)).
Proof.
  intros Hne Hbare.
  assert (Hc : candidates cfg = ["meta.json"; "meta.json"]%string).
  { unfold candidates. now rewrite replaceFinalSegment_noSlash. }
  split; [exact Hc|]. intros Hu.
  unfold tryLoadMeta. rewrite Hc.
  apply (loop_none_usable net ["meta.json"; "meta.json"]%string []).
  repeat constructor; exact Hu.
Qed.

End Descriptor.

(* ===================================================================== *)
(** ** Start-up without a descriptor *)
(* ===================================================================== *)

Section Startup.

Lemma init_static_names (cfg : Config) (created : Session) :
  featureNames (init cfg None created)
  = schema_spec None (FEATURE_NAMES cfg) (FEATURE_COUNT cfg).
Proof.
  unfold init, schema_spec. cbn [featureNames].
  destruct (FEATURE_NAMES cfg) as [|n l]; [|reflexivity].
  cbn [List.length Nat.ltb Nat.leb]. rewrite count_test.
  destruct (positiveInteger (FEATURE_COUNT cfg)) as [N|] eqn:E;
    [|reflexivity].
  rewrite (count_length _ _ E). apply from_length_synthesized.
Qed.

(** X6.  When no candidate location yields a descriptor, start-up falls
    back to the static configuration: the schema is the static name list
    or the synthesized names, there is no scaler, and every request that
    passes the input checks gives its raw vector to the runner. *)
Theorem startup_without_descriptor (cfg : Config) (net : Network)
    (created : Session) (w : Page) :
  Forall (fun u => usable net u = None) (candidates cfg) ->
  meta (startup cfg net created) = None
  /\ scaler (startup cfg net created) = None
  /\ featureNames (startup cfg net created)
     = schema_spec None (FEATURE_NAMES cfg) (FEATURE_COUNT cfg)
  /\ (getRowValues (startup cfg net created) w <> [] ->
      schemaAccepts (startup cfg net created)
        (getRowValues (startup cfg net created) w) ->
      runs (predict cfg (startup cfg net created) w)
      = (runs w
         ++ [[(INPUT_NAME cfg,
               float32Tensor (getRowValues (startup cfg net created) w))]])%list).
Proof.
  intros Hnone. unfold startup, tryLoadMeta.
  rewrite (loop_none_usable net (candidates cfg) [] Hnone). cbn [fst].
  split; [reflexivity|]. split; [reflexivity|].
  split; [apply init_static_names|].
  intros Hrow Hok.
  rewrite (predict_paths cfg (init cfg None created) created eq_refl w).
  cbv zeta.
  rewrite (nonempty_length _ Hrow),
    (schemaAccepts_test (init cfg None created) _ Hok).
  cbn [scaler init]. apply invoked_runs.
Qed.

End Startup.

(* ===================================================================== *)
(** ** What every request does to the page *)
(* ===================================================================== *)

Section Outcomes.

Variable cfg : Config.
Variable g : Globals.

(** X7.  [predict] never changes what the user entered: the Quick Paste
    text and every feature input are as before, so a repeated request
    reads the same input vector. *)
Theorem predict_keeps_inputs (w : Page) :
  csvRow (predict cfg g w) = csvRow w
  /\ inputValue (predict cfg g w) = inputValue w
  /\ getRowValues g (predict cfg g w) = getRowValues g w.
Proof.
  assert (H : csvRow (predict cfg g w) = csvRow w
              /\ inputValue (predict cfg g w) = inputValue w).
  { destruct (session g) as [run|] eqn:Hs.
    - rewrite (predict_paths cfg g run Hs w). cbv zeta.
      repeat match goal with
             | |- context [if ?b then _ else _] => destruct b
             | |- context [match scaler g with _ => _ end] =>
                 destruct (scaler g)
             end;
        unfold invoked; cbv zeta;
        try (destruct (run _) as [outputs|e];
             [destruct (JS.member (OUTPUT_NAME cfg) outputs)|]);
        split; reflexivity.
    - unfold predict. rewrite Hs. split; reflexivity. }
  destruct H as [Hc Hi]. split; [exact Hc|]. split; [exact Hi|].
  unfold getRowValues. now rewrite Hc, Hi.
Qed.

(** X8.  A request calls the runner at most once.  What it gives the
    runner is a single float32 tensor under the configured input name, of
    shape [1, n] with [n >= 1] values, where [n] is the schema length in
    named mode and the length of both scaler sequences when a scaler is
    present. *)
Theorem predict_runs_once (w : Page) :
  runs (predict cfg g w) = runs w
  \/ exists row : list float,
       runs (predict cfg g w)
       = (runs w ++ [[(INPUT_NAME cfg, float32Tensor row)]])%list
       /\ row <> []
       /\ List.length (tensor_data (float32Tensor row)) = List.length row
       /\ dims (float32Tensor row) = [1%nat; List.length row]
       /\ (featureNames g <> [] ->
           List.length row = List.length (featureNames g))
       /\ (forall sc : Scaler,
             scaler g = Some sc ->
             List.length (mean sc) = List.length row
             /\ List.length (scale sc) = List.length row).
Proof.
  destruct (session g) as [run|] eqn:Hs;
    [|left; unfold predict; now rewrite Hs].
  rewrite (predict_paths cfg g run Hs w). cbv zeta.
  set (row := getRowValues g w).
  destruct (List.length row =? 0)%nat eqn:Hempty; [now left|].
  destruct ((0 <? List.length (featureNames g))%nat
            && negb (List.length row =? List.length (featureNames g))%nat)
    eqn:Hschema; [now left|].
  assert (Hne : forall r : list float,
            List.length r = List.length row -> r <> []).
  { intros r Hr ->. cbn in Hr. rewrite <- Hr in Hempty. discriminate. }
  assert (Hnamed : forall r : list float,
            List.length r = List.length row ->
            featureNames g <> [] ->
            List.length r = List.length (featureNames g)).
  { intros r Hr Hnames. rewrite Hr.
    apply andb_false_iff in Hschema as [H | H].
    - destruct (featureNames g); [congruence | discriminate].
    - apply negb_false_iff in H. now apply Nat.eqb_eq in H. }
  destruct (scaler g) as [sc|] eqn:Hsc.
  - destruct (negb (List.length (mean sc) =? List.length row)%nat
              || negb (List.length (scale sc) =? List.length row)%nat)
      eqn:Hfit; [now left|].
    apply orb_false_iff in Hfit as [Hm Hv].
    apply negb_false_iff, Nat.eqb_eq in Hm.
    apply negb_false_iff, Nat.eqb_eq in Hv.
    pose proof (zscoreRow_length row (mean sc) (scale sc)) as Hz.
    right. exists (zscoreRow row (mean sc) (scale sc)).
    split; [apply invoked_runs|].
    split; [now apply Hne|].
    split; [apply length_map|]. split; [reflexivity|].
    split; [now apply Hnamed|].
    intros sc' [= <-]. rewrite Hz. now split.
  - right. exists row.
    split; [apply invoked_runs|].
    split; [now apply Hne|].
    split; [apply length_map|]. split; [reflexivity|].
    split; [now apply Hnamed|]. discriminate.
Qed.

Variable run : Session.
Hypothesis ready : session g = Some run.

(** X9.  A request never leaves the status at "Running…".  Either it ends
    with "Done.", the result element shows the decoded output of the one
    runner call and the console is untouched; or it ends with
    "Error: <message>", that message is logged to the console once and
    the result element is untouched. *)
Theorem predict_outcome (w : Page) :
  (status (predict cfg g w) = "Done."%string
   /\ console (predict cfg g w) = console w
   /\ exists (feeds : Feeds) (outputs : list (string * Output))
             (out : Output),
        runs (predict cfg g w) = (runs w ++ [feeds])%list
        /\ run feeds = Resolved outputs
        /\ JS.get (OUTPUT_NAME cfg) outputs = Some out
        /\ result (predict cfg g w) = resultText out)
  \/ (exists message : string,
        status (predict cfg g w) = ("Error: " ++ message)%string
        /\ console (predict cfg g w) = (console w ++ [message])%list
        /\ result (predict cfg g w) = result w).
Proof.
  rewrite (predict_paths cfg g run ready w). cbv zeta.
  assert (Hfail : forall m s,
            exists message : string,
              status (failed m (with_status s w))
              = ("Error: " ++ message)%string
              /\ console (failed m (with_status s w))
                 = (console w ++ [message])%list
              /\ result (failed m (with_status s w)) = result w).
  { intros m s. exists m. repeat split. }
  assert (Hinv : forall row,
    (status (invoked cfg run row (with_status "Running…" w)) = "Done."%string
     /\ console (invoked cfg run row (with_status "Running…" w)) = console w
     /\ exists (feeds : Feeds) (outputs : list (string * Output))
               (out : Output),
          runs (invoked cfg run row (with_status "Running…" w))
          = (runs w ++ [feeds])%list
          /\ run feeds = Resolved outputs
          /\ JS.get (OUTPUT_NAME cfg) outputs = Some out
          /\ result (invoked cfg run row (with_status "Running…" w))
             = resultText out)
    \/ (exists message : string,
          status (invoked cfg run row (with_status "Running…" w))
          = ("Error: " ++ message)%string
          /\ console (invoked cfg run row (with_status "Running…" w))
             = (console w ++ [message])%list
          /\ result (invoked cfg run row (with_status "Running…" w))
             = result w)).
  { intros row. unfold invoked. cbv zeta.
    destruct (run [(INPUT_NAME cfg, float32Tensor row)])
      as [outputs | e] eqn:Hrun.
    - unfold JS.member.
      destruct (JS.get (OUTPUT_NAME cfg) outputs) as [out|] eqn:Hget.
      + left. split; [reflexivity|]. split; [reflexivity|].
        exists [(INPUT_NAME cfg, float32Tensor row)], outputs, out.
        repeat split; assumption.
      + destruct (JS.inheritedName (OUTPUT_NAME cfg));
          right; eexists; repeat split.
    - right. exists e. repeat split. }
  destruct (List.length (getRowValues g w) =? 0)%nat; [right; apply Hfail|].
  destruct ((0 <? List.length (featureNames g))%nat
            && negb (List.length (getRowValues g w)
                     =? List.length (featureNames g))%nat);
    [right; apply Hfail|].
  destruct (scaler g) as [sc|]; [|apply Hinv].
  destruct (negb (List.length (mean sc) =? List.length (getRowValues g w))%nat
            || negb (List.length (scale sc)
                     =? List.length (getRowValues g w))%nat);
    [right; apply Hfail | apply Hinv].
Qed.

(** X10.  In named mode, a scaler whose center or scale sequence is not
    as long as the schema blocks every request: whatever is entered, the
    request ends in an error and the runner is never called. *)
Theorem scaler_schema_mismatch_blocks (w : Page) (sc : Scaler) :
  featureNames g <> [] ->
  scaler g = Some sc ->
  List.length (mean sc) <> List.length (featureNames g)
  \/ List.length (scale sc) <> List.length (featureNames g) ->
  runs (predict cfg g w) = runs w
  /\ result (predict cfg g w) = result w
  /\ exists message : string,
       status (predict cfg g w) = ("Error: " ++ message)%string.
Proof.
  intros Hnamed Hsc Hlen.
  rewrite (predict_paths cfg g run ready w). cbv zeta.
  assert (Hfail : forall m s,
            runs (failed m (with_status s w)) = runs w
            /\ result (failed m (with_status s w)) = result w
            /\ exists message : string,
                 status (failed m (with_status s w))
                 = ("Error: " ++ message)%string).
  { intros m s. repeat split. now exists m. }
  destruct (List.length (getRowValues g w) =? 0)%nat; [apply Hfail|].
  destruct ((0 <? List.length (featureNames g))%nat
            && negb (List.length (getRowValues g w)
                     =? List.length (featureNames g))%nat) eqn:Hschema;
    [apply Hfail|].
  apply andb_false_iff in Hschema as [H | H].
  { destruct (featureNames g); [congruence | discriminate]. }
  apply negb_false_iff, Nat.eqb_eq in H.
  rewrite Hsc, scalerMisfit_test; [apply Hfail|].
  rewrite H. exact Hlen.
Qed.

End Outcomes.

(* ===================================================================== *)
(** ** The input vector *)
(* ===================================================================== *)

Section Rows.

Variable g : Globals.

Lemma split_comma_length (s : string) :
  List.length (JS.split_comma s) = S (commas s).
Proof.
  induction s as [|c s IH]; [reflexivity|].
  cbn [JS.split_comma commas].
  destruct (Ascii.eqb c ","); cbn [List.length]; [now rewrite IH|].
  destruct (JS.split_comma s); [discriminate IH | exact IH].
Qed.

(** X11.  A vector read from the Quick Paste box never holds NaN: a field
    that is not numeric is dropped, not rejected, so the vector has at
    most as many entries as the text has comma-separated fields. *)
Theorem csv_row_has_no_NaN (w : Page) :
  JS.trim (csvRow w) <> ""%string ->
  Forall (fun v => JS.Number_isNaN v = false) (getRowValues g w)
  /\ (List.length (getRowValues g w) <= S (commas (JS.trim (csvRow w))))%nat.
Proof.
  intros Hcsv. unfold getRowValues. rewrite or_else_empty.
  destruct (JS.trim (csvRow w)) as [|c r] eqn:E; [congruence|].
  cbn [String.length Nat.ltb Nat.leb]. split.
  - apply Forall_forall. intros v Hv. apply filter_In in Hv as [_ Hv].
    now apply negb_true_iff in Hv.
  - rewrite <- split_comma_length.
    etransitivity; [apply filter_length_le|]. now rewrite length_map.
Qed.

Lemma named_row (w : Page) :
  JS.trim (csvRow w) = ""%string ->
  getRowValues g w
  = map (fun n => JS.parseFloat (JS.or_else (inputValue w ("f_" ++ n)) "0"))
      (featureNames g).
Proof.
  intros H. unfold getRowValues. rewrite or_else_empty, H. cbn.
  now destruct (featureNames g).
Qed.

(** X12.  When every feature has its input on the page and the Quick
    Paste box is blank, the vector has one entry per schema name, and a
    feature input left empty counts as 0. *)
Theorem named_row_defaults (w : Page) (i : nat) :
  inputsRendered g ->
  JS.trim (csvRow w) = ""%string ->
  (i < List.length (featureNames g))%nat ->
  List.length (getRowValues g w) = List.length (featureNames g)
  /\ (inputValue w ("f_" ++ nth i (featureNames g) "") = ""%string ->
      nth i (getRowValues g w) nan = 0).
Proof.
  intros _ Hcsv Hi. rewrite (named_row w Hcsv).
  split; [apply length_map|]. intros Hblank.
  set (f := fun n => JS.parseFloat (JS.or_else (inputValue w ("f_" ++ n)) "0")).
  rewrite (nth_indep _ nan (f ""%string)) by (now rewrite length_map).
  rewrite (map_nth f). unfold f. rewrite Hblank. vm_compute. reflexivity.
Qed.

(** X13.  In named mode, when every feature has its input on the page,
    there is no scaler and the Quick Paste box is blank, a request is
    never turned away by an input check: the runner is called with one
    value per schema name. *)
Theorem named_request_reaches_runner (cfg : Config) (run : Session)
    (w : Page) :
  session g = Some run ->
  inputsRendered g ->
  featureNames g <> [] ->
  scaler g = None ->
  JS.trim (csvRow w) = ""%string ->
  runs (predict cfg g w)
  = (runs w ++ [[(INPUT_NAME cfg, float32Tensor (getRowValues g w))]])%list
  /\ List.length (getRowValues g w) = List.length (featureNames g).
Proof.
  intros Hs _ Hnamed Hsc Hcsv.
  assert (Hlen : List.length (getRowValues g w)
                 = List.length (featureNames g))
    by (rewrite (named_row w Hcsv); apply length_map).
  split; [|exact Hlen].
  rewrite (predict_paths cfg g run Hs w). cbv zeta.
  rewrite Hlen, Nat.eqb_refl, andb_false_r, Hsc.
  destruct (featureNames g); [congruence|]. cbn [List.length Nat.eqb].
  apply invoked_runs.
Qed.

Lemma existsb_own_id (names : list string) (n : string) :
  In n names ->
  existsb (fun name => String.eqb ("f_" ++ n) ("f_" ++ name)) names = true.
Proof.
  intros H. apply existsb_exists. exists n. split; [exact H|].
  apply String.eqb_refl.
Qed.

Lemma reset_row (w : Page) :
  getRowValues g (resetUI g w) = repeat 0 (List.length (featureNames g)).
Proof.
  rewrite named_row by reflexivity. cbn [inputValue resetUI].
  assert (H : forall names l : list string,
            (forall n, In n l -> In n names) ->
            map (fun n =>
                   JS.parseFloat
                     (JS.or_else
                        (if existsb
                              (fun name => String.eqb ("f_" ++ n) ("f_" ++ name))
                              names
                         then "0"%string else inputValue w ("f_" ++ n))
                        "0")) l
            = repeat 0 (List.length l)).
  { intros names l. induction l as [|n l IH]; intros Hin; [reflexivity|].
    cbn [map List.length repeat].
    rewrite (existsb_own_id names n) by (apply Hin; now left).
    rewrite IH by (intros x Hx; apply Hin; now right).
    replace (JS.parseFloat (JS.or_else "0" "0")) with 0
      by (vm_compute; reflexivity).
    reflexivity. }
  apply H. auto.
Qed.

(** X14.  When every feature has its input on the page, after [resetUI]
    the vector read from the page is all zeros, one per schema name (so
    it is empty in free-form mode), whatever the page held before. *)
Theorem reset_row_is_zero (w : Page) :
  inputsRendered g ->
  getRowValues g (resetUI g w) = repeat 0 (List.length (featureNames g))
  /\ List.length (getRowValues g (resetUI g w))
     = List.length (featureNames g).
Proof.
  intros _. rewrite reset_row. split; [reflexivity | apply repeat_length].
Qed.

(** X15.  In free-form mode a request made right after [resetUI] is
    rejected with "No input values provided."; the runner is not
    called. *)
Theorem reset_then_predict_free_form (cfg : Config) (run : Session)
    (w : Page) :
  session g = Some run ->
  featureNames g = [] ->
  rejectedWith "No input values provided." (resetUI g w)
    (predict cfg g (resetUI g w)).
Proof.
  intros Hs Hfree.
  rewrite (predict_paths cfg g run Hs (resetUI g w)). cbv zeta.
  rewrite reset_row, Hfree. apply failed_rejected.
Qed.

End Rows.

(* ===================================================================== *)
(** ** zscoreRow outside its guard *)
(* ===================================================================== *)

Section ZScoreEdges.

Lemma float_of_spec (x : float) (v : spec_float) :
  Prim2SF x = v -> x = SF2Prim v.
Proof. intros <-. symmetry. apply SF2Prim_Prim2SF. Qed.

Lemma sub_nan (v : float) : v - nan = nan.
Proof.
  apply (float_of_spec _ S754_nan). rewrite sub_spec.
  change (Prim2SF nan) with S754_nan. now destruct (Prim2SF v).
Qed.

Lemma div_nan (v : float) : v / nan = nan.
Proof.
  apply (float_of_spec _ S754_nan). rewrite div_spec.
  change (Prim2SF nan) with S754_nan. now destruct (Prim2SF v).
Qed.

Lemma nan_div (v : float) : nan / v = nan.
Proof.
  apply (float_of_spec _ S754_nan). rewrite div_spec.
  change (Prim2SF nan) with S754_nan. reflexivity.
Qed.

(** X16.  [zscoreRow] by itself neither truncates nor fails when a
    parameter sequence is too short: it returns one value per input, and
    the value is NaN at every index the center or the scale sequence does
    not reach. *)
Theorem zscoreRow_short_parameters (values center scaling : list float)
    (i : nat) :
  (i < List.length values)%nat ->
  (List.length center <= i)%nat \/ (List.length scaling <= i)%nat ->
  List.length (zscoreRow values center scaling) = List.length values
  /\ nth i (zscoreRow values center scaling) nan = nan.
Proof.
  intros Hi Hshort. split; [apply zscoreRow_length|].
  rewrite zscoreRow_nth by exact Hi.
  destruct Hshort as [H | H].
  - rewrite (nth_overflow center nan H), sub_nan. apply nan_div.
  - rewrite (nth_overflow scaling nan H). apply div_nan.
Qed.

(** X17.  A scale entry of zero is not guarded: the normalized value at
    that index is infinite or NaN, never a finite number. *)
Theorem zscoreRow_zero_scale (values center scaling : list float) (i : nat) :
  (i < List.length values)%nat ->
  nth i scaling nan = 0 \/ nth i scaling nan = -0 ->
  match Prim2SF (nth i (zscoreRow values center scaling) nan) with
  | S754_nan | S754_infinity _ => True
  | S754_zero _ | S754_finite _ _ _ => False
  end.
Proof.
  intros Hi Hzero. rewrite zscoreRow_nth by exact Hi. rewrite div_spec.
  destruct Hzero as [-> | ->].
  - change (Prim2SF 0) with (S754_zero false).
    now destruct (Prim2SF (nth i values nan - nth i center nan)).
  - change (Prim2SF (-0)) with (S754_zero true).
    now destruct (Prim2SF (nth i values nan - nth i center nan)).
Qed.

End ZScoreEdges.

(* ===================================================================== *)
(** ** Start-up with a descriptor *)
(* ===================================================================== *)

Section StartupFound.

(** X18.  The descriptor of the first usable candidate is the one start-up
    uses: its non-empty feature-name list becomes the schema whatever the
    static configuration says, it gives a scaler exactly when it has both
    the center and the scale array, and a descriptor with only one of
    them gives none. *)
Theorem startup_with_descriptor (cfg : Config) (net : Network)
    (created : Session) (pre : list string) (url : string)
    (post : list string) (m : Meta) :
  candidates cfg = (pre ++ url :: post)%list ->
  Forall (fun u => usable net u = None) pre ->
  usable net url = Some (Some m) ->
  meta (startup cfg net created) = Some m
  /\ (forall (n : string) (l : list string),
        feature_names m = Some (n :: l) ->
        featureNames (startup cfg net created) = n :: l)
  /\ (forall mu sd : list float,
        scaler_mean m = Some mu -> scaler_scale m = Some sd ->
        scaler (startup cfg net created)
        = Some {| mean := mu; scale := sd |})
  /\ (scaler_mean m = None \/ scaler_scale m = None ->
      scaler (startup cfg net created) = None).
Proof.
  intros Hc Hpre Hurl. unfold startup, tryLoadMeta. rewrite Hc.
  rewrite (loop_first_usable net pre url post [] (Some m) Hpre Hurl).
  cbn [fst]. split; [reflexivity|].
  split; [intros n l Hn; unfold init; cbn [featureNames]; now rewrite Hn|].
  split.
  - intros mu sd Hmu Hsd. unfold init. cbn [scaler]. now rewrite Hmu, Hsd.
  - intros [H | H]; unfold init; cbn [scaler]; rewrite H;
      [reflexivity | now destruct (scaler_mean m)].
Qed.

End StartupFound.

(* ===================================================================== *)
(** ** The properties on the concrete pages *)
(* ===================================================================== *)

Lemma candidates_same_folder_witness :
  candidates modelInFolder
  = ["artifacts/run1/meta.json"; "meta.json"]%string.
Proof.
  apply (candidates_same_folder modelInFolder "artifacts/run1" "model.onnx").
  - reflexivity.
  - discriminate.
  - reflexivity.
Defined.

Lemma candidates_bare_name_witness :
  candidates shipped = ["meta.json"; "meta.json"]%string
  /\ tryLoadMeta shipped offline = (None, ["meta.json"; "meta.json"]%string).
Proof.
  destruct (candidates_bare_name shipped offline) as [Hc Hf].
  - discriminate.
  - reflexivity.
  - split; [exact Hc | now apply Hf].
Defined.

Lemma candidates_no_final_segment_witness :
  candidates folderOnly = ["models/"; "meta.json"]%string.
Proof.
  apply (candidates_no_final_segment folderOnly).
  right. now exists "models"%string.
Defined.

Lemma tryLoadMeta_first_usable_witness :
  tryLoadMeta modelInFolder rootOnly
  = (Some metaXY, ["artifacts/run1/meta.json"; "meta.json"]%string)
  /\ tryLoadMeta modelInFolder besideModel
     = (Some metaXY, ["artifacts/run1/meta.json"]%string).
Proof.
  split.
  - apply (tryLoadMeta_first_usable modelInFolder rootOnly
             ["artifacts/run1/meta.json"%string] "meta.json" []).
    + reflexivity.
    + repeat constructor.
    + reflexivity.
  - apply (tryLoadMeta_first_usable modelInFolder besideModel
             [] "artifacts/run1/meta.json" ["meta.json"%string]).
    + reflexivity.
    + constructor.
    + reflexivity.
Defined.

Lemma tryLoadMeta_none_usable_witness :
  tryLoadMeta modelInFolder offline
  = (None, ["artifacts/run1/meta.json"; "meta.json"]%string).
Proof.
  apply (tryLoadMeta_none_usable modelInFolder offline).
  repeat constructor.
Defined.

Lemma startup_without_descriptor_witness :
  featureNames (startup modelInFolder offline echo) = ["a"; "b"]%string
  /\ scaler (startup modelInFolder offline echo) = None
  /\ runs (predict modelInFolder (startup modelInFolder offline echo)
             (page "1,2"))
     = [[("input"%string, float32Tensor [1; 2])]].
Proof.
  destruct (startup_without_descriptor modelInFolder offline echo
              (page "1,2")) as (_ & Hsc & Hnames & Hruns).
  - repeat constructor.
  - split; [exact Hnames|]. split; [exact Hsc|].
    assert (Hrow : getRowValues (startup modelInFolder offline echo)
                     (page "1,2") = [1; 2]) by (vm_compute; reflexivity).
    rewrite Hrow in Hruns. apply Hruns.
    + discriminate.
    + right. reflexivity.
Defined.

Lemma startup_with_descriptor_witness :
  meta (startup modelInFolder besideModel echo) = Some metaXY
  /\ featureNames (startup modelInFolder besideModel echo)
     = ["x"; "y"]%string
  /\ scaler (startup modelInFolder besideModel echo)
     = Some {| mean := [1; 1]; scale := [2; 2] |}.
Proof.
  destruct (startup_with_descriptor modelInFolder besideModel echo
              [] "artifacts/run1/meta.json" ["meta.json"%string] metaXY)
    as (Hm & Hn & Hs & _).
  - reflexivity.
  - constructor.
  - reflexivity.
  - split; [exact Hm|].
    split; [now apply Hn | now apply Hs].
Defined.

Lemma predict_outcome_witness :
  status (predict shipped gXY (page "")) = "Done."%string
  /\ console (predict shipped gXY (page "")) = console (page "")
  /\ result (predict shipped gXY (page "")) = "1.000000, 2.000000"%string.
Proof.
  destruct (predict_outcome shipped gXY echo eq_refl (page ""))
    as [(Hdone & Hconsole & _) | (message & Herr & _)].
  - split; [exact Hdone|]. split; [exact Hconsole|].
    vm_compute. reflexivity.
  - vm_compute in Herr. discriminate.
Defined.

Lemma scaler_schema_mismatch_blocks_witness :
  featureNames (init shipped (Some metaShortScaler) echo)
  = ["x"; "y"]%string
  /\ runs (predict shipped (init shipped (Some metaShortScaler) echo)
             (page ""))
     = runs (page "")
  /\ runs (predict shipped (init shipped (Some metaShortScaler) echo)
             (page "1,2"))
     = runs (page "1,2").
Proof.
  split; [reflexivity|]. split.
  - apply (scaler_schema_mismatch_blocks shipped
             (init shipped (Some metaShortScaler) echo) echo eq_refl
             (page "") {| mean := [1]; scale := [2] |});
      [discriminate | reflexivity | left; cbn; lia].
  - apply (scaler_schema_mismatch_blocks shipped
             (init shipped (Some metaShortScaler) echo) echo eq_refl
             (page "1,2") {| mean := [1]; scale := [2] |});
      [discriminate | reflexivity | left; cbn; lia].
Defined.

Lemma csv_row_has_no_NaN_witness :
  getRowValues gFree (page "1,x,3") = [1; 3]
  /\ Forall (fun v => JS.Number_isNaN v = false)
       (getRowValues gFree (page "1,x,3"))
  /\ (List.length (getRowValues gFree (page "1,x,3")) <= 3)%nat.
Proof.
  split; [vm_compute; reflexivity|].
  apply (csv_row_has_no_NaN gFree (page "1,x,3")).
  vm_compute. discriminate.
Defined.

Lemma named_row_defaults_witness :
  List.length (getRowValues gAB pageBlank) = 2%nat
  /\ nth 1 (getRowValues gAB pageBlank) nan = 0.
Proof.
  destruct (named_row_defaults gAB pageBlank 1) as [Hlen Hzero].
  - repeat constructor.
  - reflexivity.
  - cbn. lia.
  - split; [exact Hlen | now apply Hzero].
Defined.

Lemma named_request_reaches_runner_witness :
  runs (predict namesAB gAB (page ""))
  = [[("input"%string, float32Tensor (getRowValues gAB (page "")))]]
  /\ List.length (getRowValues gAB (page "")) = 2%nat.
Proof.
  apply (named_request_reaches_runner gAB namesAB echo (page ""));
    [reflexivity | repeat constructor | discriminate
     | reflexivity | reflexivity].
Defined.

Lemma reset_row_is_zero_witness :
  getRowValues gXY (resetUI gXY (page "7,8")) = [0; 0]
  /\ List.length (getRowValues gXY (resetUI gXY (page "7,8"))) = 2%nat.
Proof.
  apply (reset_row_is_zero gXY (page "7,8")). repeat constructor.
Defined.

Lemma reset_then_predict_free_form_witness :
  rejectedWith "No input values provided." (resetUI gFree (page "1,2"))
    (predict shipped gFree (resetUI gFree (page "1,2"))).
Proof.
  apply (reset_then_predict_free_form gFree shipped echo (page "1,2"));
    reflexivity.
Defined.

Lemma zscoreRow_short_parameters_witness :
  List.length (zscoreRow [3; 5] [1] [2; 2]) = 2%nat
  /\ nth 1 (zscoreRow [3; 5] [1] [2; 2]) nan = nan.
Proof.
  apply (zscoreRow_short_parameters [3; 5] [1] [2; 2] 1);
    [cbn; lia | left; cbn; lia].
Defined.

Lemma zscoreRow_zero_scale_witness :
  match Prim2SF (nth 0 (zscoreRow [3] [1] [0]) nan) with
  | S754_nan | S754_infinity _ => True
  | S754_zero _ | S754_finite _ _ _ => False
  end.
Proof.
  apply (zscoreRow_zero_scale [3] [1] [0] 0); [cbn; lia | now left].
Defined.

(** A feature name with a double quote is not plain: the markup written
    for it ends the id attribute at the quote. *)
Example quoted_name_not_plain :
  plainName ("a" ++ dquote ++ "b") = false
  /\ plainName "sepal length (cm)" = true.
Proof. split; reflexivity. Qed.
